(** * Shallow embedding of the AgFin AI service core

  Tool handlers ([certify_application], [update_module], [request_audit]),
  the tool registry ([ToolRegistry.execute_tool]), the history manager
  ([ConversationHistory]) and the blocking tool loop
  ([ClaudeClient.execute_with_tools]) of [src/ai-service/src].

  The relational store is modelled as explicit state: one list per table,
  each handler taking the store and returning its result together with the
  new store.  SQL statements become list filters and maps.  Clock readings
  ([datetime.utcnow()], [NOW()]) are integers passed in by the caller and
  rendered in decimal where the code formats them.  Driver exceptions
  ([asyncpg.PostgresError]) are not modelled: every statement succeeds. *)

From Stdlib Require Import String Ascii List ZArith Bool Lia.
Import ListNotations.
Set Warnings "-register-all".
Open Scope string_scope.
Open Scope list_scope.
Open Scope bool_scope.

(* ------------------------------------------------------------------ *)
(** ** Common helpers *)

Module Py.

(** Python truthiness of an optional string ([None] and the empty string are falsy). *)
Definition truthy (o : option string) : bool :=
  match o with
  | Some s => negb (String.eqb s EmptyString)
  | None => false
  end.

(** [a or b] on optional strings, as [x = a; if not x and ...: x = b]. *)
Definition or_else (a b : option string) : option string :=
  if truthy a then a else b.

Definition digit (d : nat) : ascii := ascii_of_nat (48 + d).

Fixpoint digits_aux (fuel n : nat) (acc : string) : string :=
  match fuel with
  | O => acc
  | S f =>
      let acc' := String (digit (n mod 10)) acc in
      if Nat.ltb n 10 then acc' else digits_aux f (n / 10) acc'
  end.

(** [str(n)] for a non-negative integer. *)
Definition str_nat (n : nat) : string := digits_aux (S n) n EmptyString.

(** [str(t)] for a clock reading; stands for [isoformat()]. *)
Definition str_Z (t : Z) : string :=
  if (t <? 0)%Z then String "-" (str_nat (Z.to_nat (- t))) else str_nat (Z.to_nat t).

Fixpoint join (sep : string) (l : list string) : string :=
  match l with
  | [] => EmptyString
  | [x] => x
  | x :: r => (x ++ sep ++ join sep r)%string
  end.

End Py.

(* ------------------------------------------------------------------ *)
(** ** JSONB values *)

Module Json.

Inductive json : Type :=
| JNull
| JBool (b : bool)
| JNum (n : Z)
| JStr (s : string)
| JArr (l : list json)
| JObj (kvs : list (string * json)).

Fixpoint get (k : string) (kvs : list (string * json)) : option json :=
  match kvs with
  | [] => None
  | (k', v) :: r => if String.eqb k k' then Some v else get k r
  end.

(** [jsonb_typeof(v) = 'object'] *)
Definition is_object (v : json) : bool :=
  match v with JObj _ => true | _ => false end.

(** [value->>'k' = 'true'] : the text rendering of the key is [true]. *)
Definition text_is_true (o : option json) : bool :=
  match o with
  | Some (JBool true) => true
  | Some (JStr s) => String.eqb s "true"
  | _ => false
  end.

(** [value @> '{"_audit_flagged": true}'::jsonb] *)
Definition contains_true (k : string) (v : json) : bool :=
  match v with
  | JObj kvs => match get k kvs with Some (JBool true) => true | _ => false end
  | _ => false
  end.

End Json.

Import Json.

(* ------------------------------------------------------------------ *)
(** ** The store: [applications], [documents], [module_data], [audit_trail]

  The handlers name the columns of [module_data] differently
  ([module_name]/[field_name]/[field_value] in [update_module],
  [module_number]/[field_id]/[value] in [request_audit] and
  [certify_application]); the rows below carry one column for each of
  these roles, the module stored as its number.  Confidence is kept in
  thousandths ([1.0] is [1000]). *)

Module Store.

Record app_row := mkApp {
  app_id : string;
  app_user : string;
  app_status : string;
  app_cert_type : string;
  app_notes : option string;
  app_updated : Z
}.

Record doc_row := mkDoc {
  doc_id : string;
  doc_app : string;
  doc_type : string;
  doc_status : option string;   (* extraction_status *)
  doc_meta : json
}.

Record field_row := mkField {
  f_id : nat;
  f_app : string;
  f_module : Z;
  f_field : string;
  f_value : json;
  f_source : string;
  f_conf : Z;
  f_updated : Z
}.

Record audit_row := mkAudit {
  au_app : string;
  au_user : string;
  au_action : string;
  au_field : option string;
  au_new : string;
  au_at : Z
}.

Record store := mkStore {
  apps : list app_row;
  docs : list doc_row;
  fields : list field_row;
  audit : list audit_row;
  next_id : nat
}.

(** [fetchrow("SELECT ... FROM applications WHERE id = $1")] *)
Definition find_app (s : store) (id : string) : option app_row :=
  find (fun a => String.eqb (app_id a) id) (apps s).

Definition map_app (id : string) (f : app_row -> app_row) (s : store) : store :=
  mkStore (map (fun a => if String.eqb (app_id a) id then f a else a) (apps s))
          (docs s) (fields s) (audit s) (next_id s).

Definition add_audit (r : audit_row) (s : store) : store :=
  mkStore (apps s) (docs s) (fields s) (audit s ++ [r]) (next_id s).

Definition map_field (id : nat) (f : field_row -> field_row) (s : store) : store :=
  mkStore (apps s) (docs s)
          (map (fun r => if Nat.eqb (f_id r) id then f r else r) (fields s))
          (audit s) (next_id s).

Definition map_doc (id : string) (f : doc_row -> doc_row) (s : store) : store :=
  mkStore (apps s)
          (map (fun d => if String.eqb (doc_id d) id then f d else d) (docs s))
          (fields s) (audit s) (next_id s).

(** [UPDATE applications SET updated_at = NOW() WHERE id = $1] *)
Definition touch_app (id : string) (now : Z) (s : store) : store :=
  map_app id (fun a => mkApp (app_id a) (app_user a) (app_status a)
                             (app_cert_type a) (app_notes a) now) s.

(** The [session_context] dictionary. *)
Record ctx := mkCtx { ctx_user : option string; ctx_app : option string }.

Definition ctx_user_id (c : option ctx) : option string :=
  match c with Some k => ctx_user k | None => None end.

Definition ctx_app_id (c : option ctx) : option string :=
  match c with Some k => ctx_app k | None => None end.

(** [target_application_id = application_id;
     if not target_application_id and session_context: ... .get("application_id")] *)
Definition target_app (application_id : option string) (c : option ctx) : option string :=
  match c with
  | Some k => Py.or_else application_id (ctx_app k)
  | None => application_id
  end.

(** [if user_id and str(app_row["user_id"]) != user_id] *)
Definition unauthorized (user_id : option string) (a : app_row) : bool :=
  match user_id with
  | Some u => Py.truthy user_id && negb (String.eqb (app_user a) u)
  | None => false
  end.

Definition is_terminal (st : string) : bool :=
  String.eqb st "approved" || String.eqb st "rejected".

End Store.

Import Store.

(* ------------------------------------------------------------------ *)
(** ** [certify_application] (tools/certify_application.py) *)

Module Certify.

Inductive result :=
| Err (code : string) (message : string)
| ValidationFailed (failures : list string) (application_id : string)
                   (current_status : string)
| Certified (application_id : string) (status : string)
            (certification_type : string) (certified_at : string)
            (pdf_url : string).

Definition docs_of (s : store) (id : string) : list doc_row :=
  filter (fun d => String.eqb (doc_app d) id) (docs s).

(** [doc_status_dict.get(st, 0)] over
    [SELECT extraction_status, COUNT( * ) ... GROUP BY extraction_status] *)
Definition status_count (s : store) (id : string) (st : string) : nat :=
  length (filter (fun d => match doc_status d with
                           | Some x => String.eqb x st
                           | None => false
                           end) (docs_of s id)).

(** [SELECT DISTINCT module_number FROM module_data WHERE application_id = $1] *)
Definition module_numbers (s : store) (id : string) : list Z :=
  map f_module (filter (fun r => String.eqb (f_app r) id) (fields s)).

Definition required_modules : list Z := [1; 2; 3; 4; 5]%Z.

Definition missing_modules (s : store) (id : string) : list Z :=
  filter (fun m => negb (existsb (Z.eqb m) (module_numbers s id))) required_modules.

Definition module_title (m : Z) : string :=
  if (m =? 1)%Z then "Financial Information"
  else if (m =? 2)%Z then "Compliance Records"
  else if (m =? 3)%Z then "Operations Data"
  else if (m =? 4)%Z then "Sustainability Practices"
  else "Risk Management".

Definition module_label (m : Z) : string :=
  ("Module " ++ Py.str_Z m ++ " (" ++ module_title m ++ ")")%string.

(** The row predicate of the flagged-fields query. *)
Definition flagged_value (v : json) : bool :=
  (is_object v &&
     match v with JObj kvs => text_is_true (get "_audit_flagged" kvs) | _ => false end)
  || contains_true "_audit_flagged" v.

Definition flagged_count (s : store) (id : string) : nat :=
  length (filter (fun r => String.eqb (f_app r) id && flagged_value (f_value r)) (fields s)).

Definition total_docs (s : store) (id : string) : nat := length (docs_of s id).

(** The four checks, as (failing?, message) pairs in the order the handler
    appends their messages; check 1 contributes three of them. *)
Definition c_pending (s : store) (id : string) : bool * string :=
  let n := status_count s id "pending" in
  (Nat.ltb 0 n, (Py.str_nat n ++ " document(s) still pending processing")%string).

Definition c_processing (s : store) (id : string) : bool * string :=
  let n := status_count s id "processing" in
  (Nat.ltb 0 n, (Py.str_nat n ++ " document(s) currently being processed")%string).

Definition c_error (s : store) (id : string) : bool * string :=
  let n := status_count s id "error" in
  (Nat.ltb 0 n, (Py.str_nat n ++ " document(s) failed processing")%string).

Definition c_modules (s : store) (id : string) : bool * string :=
  let ms := missing_modules s id in
  (negb (Nat.eqb (length ms) 0),
   ("Missing required modules: " ++ Py.join ", " (map module_label ms))%string).

Definition c_flagged (s : store) (id : string) : bool * string :=
  let n := flagged_count s id in
  (Nat.ltb 0 n,
   (Py.str_nat n ++ " field(s) flagged for audit - must be reviewed before certification")%string).

Definition c_no_docs (s : store) (id : string) : bool * string :=
  (Nat.eqb (total_docs s id) 0, "No documents uploaded - at least one document is required").

Definition checks (s : store) (id : string) : list (bool * string) :=
  [c_pending s id; c_processing s id; c_error s id;
   c_modules s id; c_flagged s id; c_no_docs s id].

(** [validation_failures.append(msg)] for every failing check, in order. *)
Definition failures_of (cs : list (bool * string)) : list string :=
  flat_map (fun c : bool * string => if fst c then [snd c] else []) cs.

Definition validation_failures (s : store) (id : string) : list string :=
  failures_of (checks s id).

Definition pdf_url (id : string) : string :=
  ("/api/applications/" ++ id ++ "/certificate.pdf")%string.

(** [COALESCE(notes, '') || E'\n\nCertified at: ' || $2] *)
Definition certified_note (notes : option string) (at_ : string) : string :=
  (match notes with Some n => n | None => EmptyString end
     ++ String (ascii_of_nat 10) (String (ascii_of_nat 10) "Certified at: ") ++ at_)%string.

Definition approve (id : string) (now : Z) (s : store) : store :=
  map_app id (fun a => mkApp (app_id a) (app_user a) "approved" (app_cert_type a)
                             (Some (certified_note (app_notes a) (Py.str_Z now))) now) s.

Definition certify_application (certification_confirmed : bool)
    (application_id : option string) (session_context : option ctx)
    (now : Z) (s : store) : result * store :=
  if negb certification_confirmed then (Err "confirmation_required" EmptyString, s) else
  let target := target_app application_id session_context in
  match target with
  | None => (Err "application_id_required" EmptyString, s)
  | Some id =>
    if negb (Py.truthy target) then (Err "application_id_required" EmptyString, s) else
    let user_id := ctx_user_id session_context in
    match find_app s id with
    | None => (Err "application_not_found" EmptyString, s)
    | Some a =>
      if unauthorized user_id a then (Err "unauthorized" EmptyString, s) else
      if is_terminal (app_status a) then (Err "already_certified" EmptyString, s) else
      match validation_failures s id with
      | (_ :: _) as vf => (ValidationFailed vf (app_id a) (app_status a), s)
      | [] =>
        let s1 := approve id now s in
        let s2 :=
          if Py.truthy user_id then
            match user_id with
            | Some u => add_audit (mkAudit id u "application_certified" None
                            ("Application certified for " ++ app_cert_type a)%string now) s1
            | None => s1
            end
          else s1 in
        let st := match find_app s2 id with Some a' => app_status a' | None => EmptyString end in
        (Certified (app_id a) st (app_cert_type a) (Py.str_Z now) (pdf_url id), s2)
      end
    end
  end.

(** Row written by the approving [UPDATE applications]. *)
Definition approved_row (a : app_row) (now : Z) : app_row :=
  mkApp (app_id a) (app_user a) "approved" (app_cert_type a)
        (Some (certified_note (app_notes a) (Py.str_Z now))) now.

(** Audit rows the success path inserts ([if user_id:]). *)
Definition audit_entries (user_id : option string) (id : string) (a : app_row)
    (now : Z) : list audit_row :=
  if Py.truthy user_id then
    match user_id with
    | Some u => [mkAudit id u "application_certified" None
                   ("Application certified for " ++ app_cert_type a)%string now]
    | None => []
    end
  else [].

Definition is_certified (r : result) : bool :=
  match r with Certified _ _ _ _ _ => true | _ => false end.

End Certify.

(* ------------------------------------------------------------------ *)
(** ** [update_module] (tools/update_module.py) *)

Module UpdateModule.

Inductive result :=
| Err (code : string)
| Updated (field_id : string) (module_name : string) (module_number : Z)
          (old_value : option json) (new_value : string) (data_source : string).

(** [MODULE_NAMES] *)
Definition MODULE_NAMES (n : Z) : option string :=
  if (n =? 1)%Z then Some "financial"
  else if (n =? 2)%Z then Some "compliance"
  else if (n =? 3)%Z then Some "operations"
  else if (n =? 4)%Z then Some "sustainability"
  else if (n =? 5)%Z then Some "risk"
  else None.

Definition key_match (id : string) (m : Z) (f : string) (r : field_row) : bool :=
  String.eqb (f_app r) id && Z.eqb (f_module r) m && String.eqb (f_field r) f.

(** [SELECT id, field_value FROM module_data WHERE application_id = $1
     AND module_name = $2 AND field_name = $3] (first row) *)
Definition find_field (s : store) (id : string) (m : Z) (f : string) : option field_row :=
  find (key_match id m f) (fields s).

(** Number of stored rows for the (application, module, field) key. *)
Definition count_key (s : store) (id : string) (m : Z) (f : string) : nat :=
  length (filter (key_match id m f) (fields s)).

(** [UPDATE module_data SET field_value = $1, data_source = $2,
     confidence_score = 1.0, updated_at = NOW() WHERE id = $3] *)
Definition edit_row (value : string) (now : Z) (r : field_row) : field_row :=
  mkField (f_id r) (f_app r) (f_module r) (f_field r) (JStr value)
          "proxy_edited" 1000 now.

(** [INSERT INTO module_data (...) VALUES (..., 'proxy_entered', 1.0, NOW(), NOW())] *)
Definition insert_row (id : string) (m : Z) (f : string) (value : string) (now : Z)
    (s : store) : store :=
  mkStore (apps s) (docs s)
    (fields s ++ [mkField (next_id s) id m f (JStr value) "proxy_entered" 1000 now])
    (audit s) (S (next_id s)).

Definition update_module (module_number : Z) (field_id : string) (value : string)
    (application_id : option string) (session_context : option ctx)
    (now : Z) (s : store) : result * store :=
  match MODULE_NAMES module_number with
  | None => (Err "invalid_module", s)
  | Some module_name =>
    let target := target_app application_id session_context in
    match target with
    | None => (Err "application_id_required", s)
    | Some id =>
      if negb (Py.truthy target) then (Err "application_id_required", s) else
      let user_id := ctx_user_id session_context in
      match find_app s id with
      | None => (Err "application_not_found", s)
      | Some a =>
        if unauthorized user_id a then (Err "unauthorized", s) else
        if is_terminal (app_status a) then (Err "application_locked", s) else
        match find_field s id module_number field_id with
        | Some row =>
            let s1 := map_field (f_id row) (edit_row value now) s in
            (Updated field_id module_name module_number (Some (f_value row)) value
                     "proxy_edited", touch_app id now s1)
        | None =>
            let s1 := insert_row id module_number field_id value now s in
            (Updated field_id module_name module_number None value "proxy_entered",
             touch_app id now s1)
        end
      end
    end
  end.

End UpdateModule.

(* ------------------------------------------------------------------ *)
(** ** [request_audit] (tools/request_audit.py) *)

Module RequestAudit.

Inductive result :=
| Err (code : string)
| Flagged (flagged_fields_count : nat) (flagged_document : bool)
          (reason : string) (details : list string).

(** [if field_ids] : [None] and [[]] are falsy. *)
Definition ids_truthy (o : option (list string)) : bool :=
  match o with Some (_ :: _) => true | _ => false end.

(** [SELECT ... FROM module_data WHERE application_id = $1 AND field_id = $2] *)
Definition find_by_field (s : store) (id : string) (f : string) : option field_row :=
  find (fun r => String.eqb (f_app r) id && String.eqb (f_field r) f) (fields s).

(** [for field_id in field_ids: ...] threading the count, the details and
    the store.  The flagging [UPDATE module_data] passes [$1] and [$2] only
    to [jsonb_build_object], whose arguments are [VARIADIC "any"]:
    PostgreSQL cannot determine their types and rejects the statement when
    asyncpg prepares it, so the first listed id that has a row raises
    [asyncpg.PostgresError] ([None] here) before anything is written; an id
    without a row is skipped. *)
Fixpoint flag_fields (ids : list string) (reason : string) (now : Z) (id : string)
    (count : nat) (details : list string) (s : store)
    : option (nat * list string * store) :=
  match ids with
  | [] => Some (count, details, s)
  | f :: rest =>
    match find_by_field s id f with
    | Some _ => None
    | None => flag_fields rest reason now id count details s
    end
  end.

Definition find_doc (s : store) (doc : string) (id : string) : option doc_row :=
  find (fun d => String.eqb (doc_id d) doc && String.eqb (doc_app d) id) (docs s).

(** The document [UPDATE] assigns [metadata] three times in one [SET]
    list, which PostgreSQL rejects ("multiple assignments to same
    column"); the handler then returns [database_error], as it does when
    the field loop's [UPDATE] fails (see [flag_fields]).  No row has been
    written by the call at that point. *)
Definition request_audit (reason : string) (application_id : option string)
    (document_id : option string) (field_ids : option (list string))
    (session_context : option ctx) (now : Z) (s : store) : result * store :=
  let target := target_app application_id session_context in
  match target with
  | None => (Err "application_id_required", s)
  | Some id =>
    if negb (Py.truthy target) then (Err "application_id_required", s) else
    if negb (Py.truthy document_id) && negb (ids_truthy field_ids)
    then (Err "no_targets_specified", s) else
    let user_id := ctx_user_id session_context in
    match find_app s id with
    | None => (Err "application_not_found", s)
    | Some a =>
      if unauthorized user_id a then (Err "unauthorized", s) else
      let doc_step :=
        match document_id with
        | Some doc =>
            if Py.truthy document_id then
              match find_doc s doc id with
              | None => Some (Err "document_not_found")
              | Some _ => Some (Err "database_error")
              end
            else None
        | None => None
        end in
      match doc_step with
      | Some e => (e, s)
      | None =>
        match (if ids_truthy field_ids then
                 flag_fields (match field_ids with Some l => l | None => [] end)
                             reason now id 0 [] s
               else Some (0, [], s)) with
        | None => (Err "database_error", s)
        | Some (n, details, s1) =>
        let s2 :=
          match user_id with
          | Some u =>
              if Py.truthy user_id then
                add_audit (mkAudit id u "audit_requested"
                   (if ids_truthy field_ids
                    then Some (Py.join ", " (match field_ids with Some l => l | None => [] end))
                    else None) reason now) s1
              else s1
          | None => s1
          end in
        (Flagged n false reason details, touch_app id now s2)
        end
      end
    end
  end.

End RequestAudit.

(* ------------------------------------------------------------------ *)
(** ** [ToolRegistry.execute_tool] (tools/registry.py)

  A handler call [await tool_handler( **tool_input, ... )] either returns a
  result dictionary, raises [TypeError] (argument binding rejected the
  input: missing, unexpected or duplicated keyword arguments), or raises
  another exception.  [time.time()] is read at the start and the end. *)

Module Registry.

Definition dict := list (string * json).

Inductive outcome :=
| Returns (result : dict)
| RaisesTypeError (msg : string)
| RaisesOther (msg : string).

(** A handler, given the tool input and the [session_context] keyword
    argument when one is passed. *)
Definition handler := dict -> option dict -> outcome.

(** [self._tools]: name -> handler, in registration order. *)
Definition registry := list (string * handler).

Fixpoint lookup (name : string) (r : registry) : option handler :=
  match r with
  | [] => None
  | (n, h) :: rest => if String.eqb n name then Some h else lookup name rest
  end.

Definition has_key (k : string) (d : dict) : bool :=
  existsb (fun kv => String.eqb (fst kv) k) d.

(** The dictionary [execute_tool] returns. *)
Record envelope := mkEnv {
  success : bool;
  result : option dict;
  error_type : option string;
  available_tools : option (list string);
  execution_time : Z;
  tool_name : string;
  timestamp : option string
}.

(** [if session_context:] : empty dictionaries are falsy. *)
Definition ctx_truthy (c : option dict) : option dict :=
  match c with Some (_ :: _) => c | _ => None end.

Definition execute_tool (tools : registry) (name : string) (tool_input : dict)
    (session_context : option dict) (start_time end_time : Z) : envelope :=
  match lookup name tools with
  | None =>
      mkEnv false None (Some "tool_not_found") (Some (map fst tools))
            (end_time - start_time) name None
  | Some h =>
      match h tool_input (ctx_truthy session_context) with
      | Returns r =>
          mkEnv (negb (has_key "error" r)) (Some r) None None
                (end_time - start_time) name (Some (Py.str_Z end_time))
      | RaisesTypeError _ =>
          mkEnv false None (Some "invalid_input") None
                (end_time - start_time) name (Some (Py.str_Z end_time))
      | RaisesOther _ =>
          mkEnv false None (Some "execution_error") None
                (end_time - start_time) name (Some (Py.str_Z end_time))
      end
  end.

End Registry.

(* ------------------------------------------------------------------ *)
(** ** [ConversationHistory] (conversation/history.py)

  With the default ratio [tokens_per_char = 1.0 / 4] ([0.25], exact in
  binary floating point) [int(total_chars * 0.25)] is [total_chars / 4]
  rounded down. *)

Module History.

(** A stored message: [msg.get(role)] and [msg.get(content)], content defaulting to the empty string. *)
Record message := mkMsg { role : option string; content : string }.

Definition valid_role (r : option string) : bool :=
  match r with
  | Some x => String.eqb x "user" || String.eqb x "assistant"
  | None => false
  end.

Definition total_chars (ms : list message) : nat :=
  fold_right (fun m acc => String.length (content m) + acc) 0 ms.

Definition estimate_tokens (ms : list message) : nat := total_chars ms / 4.

(** [messages[-k:]] and [messages[:-k]] for [k >= 0]: with [k = 0] the
    first is the whole list and the second is empty. *)
Definition py_tail (k : nat) (l : list message) : list message :=
  if Nat.eqb k 0 then l else skipn (length l - k) l.

Definition py_init (k : nat) (l : list message) : list message :=
  if Nat.eqb k 0 then [] else firstn (length l - k) l.

(** [for msg in reversed(remaining_messages): ...] *)
Fixpoint prepend_older (max_tokens : nat) (older_rev : list message)
    (truncated : list message) : list message :=
  match older_rev with
  | [] => truncated
  | msg :: rest =>
      let test_history := msg :: truncated in
      if Nat.leb (estimate_tokens test_history) max_tokens
      then prepend_older max_tokens rest test_history
      else truncated
  end.

Definition kept_window (keep : nat) (ms : list message) : list message :=
  if Nat.ltb keep (length ms) then py_tail keep ms else ms.

Definition older_part (keep : nat) (ms : list message) : list message :=
  if Nat.ltb keep (length ms) then py_init keep ms else [].

Definition truncate_to_fit (max_tokens : nat) (ms : list message) (keep : nat)
    : list message :=
  match ms with
  | [] => []
  | _ =>
    if Nat.leb (estimate_tokens ms) max_tokens then ms
    else prepend_older max_tokens (rev (older_part keep ms)) (kept_window keep ms)
  end.

Definition format_for_claude (ms : list message) : list message :=
  map (fun m => mkMsg (role m) (content m)) (filter (fun m => valid_role (role m)) ms).

Definition role_text (r : option string) : string :=
  match r with Some x => x | None => "None" end.

(** The loop of [validate_alternation], from index [idx] with the previous
    role [prev]; [None] when it finds nothing wrong. *)
Fixpoint alternation_loop (prev : option string) (idx : nat) (ms : list message)
    : option string :=
  match ms with
  | [] => None
  | m :: rest =>
    if negb (valid_role (role m))
    then Some ("Invalid role '" ++ role_text (role m) ++ "' at index " ++ Py.str_nat idx)%string
    else
      match prev, role m with
      | Some p, Some r =>
          if String.eqb r p
          then Some ("Non-alternating roles at index " ++ Py.str_nat idx ++ ": "
                     ++ p ++ " -> " ++ r)%string
          else alternation_loop (role m) (S idx) rest
      | _, _ => alternation_loop (role m) (S idx) rest
      end
  end.

Definition validate_alternation (ms : list message) : bool * option string :=
  match ms with
  | [] => (true, None)
  | first :: _ =>
    match alternation_loop None 0 ms with
    | Some e => (false, Some e)
    | None =>
      if negb (match role first with Some r => String.eqb r "user" | None => false end)
      then (false, Some "Conversation must start with user message")
      else (true, None)
    end
  end.

(** The sequence [prepare_for_api] validates. *)
Definition prepared (max_tokens : nat) (ms : list message)
    (new_user_message : option string) (auto_truncate : bool) : list message :=
  let ms1 := if auto_truncate then truncate_to_fit max_tokens ms 10 else ms in
  let formatted := format_for_claude ms1 in
  match new_user_message with
  | Some t => if Py.truthy new_user_message then formatted ++ [mkMsg (Some "user") t]
              else formatted
  | None => formatted
  end.

(** [inl] is the returned list, [inr] the [ValueError] message. *)
Definition prepare_for_api (max_tokens : nat) (ms : list message)
    (new_user_message : option string) (auto_truncate : bool)
    : list message + string :=
  let formatted := prepared max_tokens ms new_user_message auto_truncate in
  match validate_alternation formatted with
  | (true, _) => inl formatted
  | (false, e) =>
      inr ("Invalid message sequence: " ++ match e with Some x => x | None => "None" end)%string
  end.

(** The property the spec states of a prepared sequence: roles are
    [user] or [assistant], no two neighbours share a role, and a non-empty
    sequence starts with [user]. *)
Inductive alternating : list message -> Prop :=
| alt_nil : alternating []
| alt_one (m : message) : valid_role (role m) = true -> alternating [m]
| alt_cons (m1 m2 : message) (rest : list message) :
    valid_role (role m1) = true -> role m1 <> role m2 ->
    alternating (m2 :: rest) -> alternating (m1 :: m2 :: rest).

Definition strictly_alternates_from_user (l : list message) : Prop :=
  alternating l /\ (forall m, hd_error l = Some m -> role m = Some "user").

End History.

(* ------------------------------------------------------------------ *)
(** ** [ClaudeClient.execute_with_tools] (claude/client.py)

  The LLM is an oracle giving, for the [i]-th [send_message] call, either
  the decoded reply or [None] when the call raises
  ([response.raise_for_status()] on an error status, or a transport
  failure). *)

Module Client.

Inductive block :=
| TextBlock (text : string)
| ToolUseBlock (id : string) (name : string) (input : string).

Record reply := mkReply { stop_reason : option string; blocks : list block }.

Inductive turn_content :=
| Text (t : string)
| Blocks (b : list block)
| ToolResults (results : list (string * string)).

Inductive outcome :=
| Returned (r : reply)
| LoopExceeded (msg : string)
| SendFailed.

(** [self._execute_tool(name, input)], the placeholder dispatcher. *)
Definition execute_placeholder (name input : string) : string :=
  ("Tool " ++ name ++ " executed with input: " ++ input)%string.

Definition tool_results (bs : list block) : list (string * string) :=
  flat_map (fun b => match b with
                     | ToolUseBlock id n inp => [(id, execute_placeholder n inp)]
                     | TextBlock _ => []
                     end) bs.

Definition is_tool_use (r : reply) : bool :=
  match stop_reason r with Some x => String.eqb x "tool_use" | None => false end.

(** [for iteration in range(max_iterations): ...]: [remaining] iterations
    left, [i] the index of the next call, [messages] the conversation. *)
Fixpoint tool_loop (llm : nat -> option reply) (remaining i : nat)
    (messages : list (string * turn_content)) : outcome :=
  match remaining with
  | O => LoopExceeded "Tool execution loop exceeded max iterations"
  | S k =>
      match llm i with
      | None => SendFailed
      | Some r =>
          if is_tool_use r
          then tool_loop llm k (S i)
                 (messages ++ [("assistant", Blocks (blocks r));
                               ("user", ToolResults (tool_results (blocks r)))])
          else Returned r
      end
  end.

Definition execute_with_tools (llm : nat -> option reply) (message : string)
    (max_iterations : nat) : outcome :=
  tool_loop llm max_iterations 0 [("user", Text message)].

End Client.

(* ------------------------------------------------------------------ *)
(** ** Python dictionaries as association lists

  Keys are unique: [d[k] = v] replaces the value of a present key in
  place, keeping the insertion order, and appends a new key at the end. *)

Module PyDict.

Definition has {V : Type} (k : string) (d : list (string * V)) : bool :=
  existsb (fun kv => String.eqb (fst kv) k) d.

(** [d.get(k)] *)
Fixpoint get {V : Type} (k : string) (d : list (string * V)) : option V :=
  match d with
  | [] => None
  | (k', v) :: r => if String.eqb k' k then Some v else get k r
  end.

(** [d[k] = v] *)
Definition set {V : Type} (k : string) (v : V) (d : list (string * V))
  : list (string * V) :=
  if has k d then map (fun kv => if String.eqb (fst kv) k then (k, v) else kv) d
  else d ++ [(k, v)].

(** [d.pop(k, None)] *)
Definition pop {V : Type} (k : string) (d : list (string * V)) : list (string * V) :=
  filter (fun kv => negb (String.eqb (fst kv) k)) d.

End PyDict.

(* ------------------------------------------------------------------ *)
(** ** The table of [ToolRegistry] (tools/registry.py): [register_tool],
    [get_tool_definitions], [get_tool_definition], [list_tools],
    [get_tool_count] and [_register_all_tools] *)

Module ToolTable.
Import Registry.

(** A [self._tools] entry: [{"handler": ..., "definition": ...}]. *)
Record entry := mkEntry { handler_of : handler; definition : dict }.

Definition tools := list (string * entry).

(** The two [ValueError]s of [register_tool]. *)
Inductive reg_error :=
| InvalidDefinition                      (* missing name or input_schema *)
| NameMismatch (definition_name : json). (* registry name vs definition name *)

Definition register_tool (name : string) (h : handler) (def : dict) (t : tools)
  : tools + reg_error :=
  if negb (has_key "name" def) || negb (has_key "input_schema" def)
  then inr InvalidDefinition
  else
    match Json.get "name" def with
    | Some (JStr n) =>
        if String.eqb n name then inl (PyDict.set name (mkEntry h def) t)
        else inr (NameMismatch (JStr n))
    | Some other => inr (NameMismatch other)
    | None => inr InvalidDefinition
    end.

Definition get_tool_definitions (t : tools) : list dict :=
  map (fun kv => definition (snd kv)) t.

(** [tool = self._tools.get(tool_name); return tool["definition"] if tool else None];
    an entry is a non-empty dictionary, hence truthy. *)
Definition get_tool_definition (tool_name : string) (t : tools) : option dict :=
  option_map definition (PyDict.get tool_name t).

Definition list_tools (t : tools) : list string := map fst t.

Definition get_tool_count (t : tools) : nat := length t.

(** The name -> handler view that [execute_tool] dispatches on. *)
Definition handlers (t : tools) : registry :=
  map (fun kv => (fst kv, handler_of (snd kv))) t.

(** [for tool_name, handler, definition_getter in tools_to_register:
       self.register_tool(...)]; a [ValueError] propagates. *)
Fixpoint register_all (specs : list (string * handler * dict)) (t : tools)
  : tools + reg_error :=
  match specs with
  | [] => inl t
  | (n, h, d) :: rest =>
      match register_tool n h d t with
      | inl t' => register_all rest t'
      | inr e => inr e
      end
  end.

End ToolTable.

(* ------------------------------------------------------------------ *)
(** ** The session cache and [summarize_old_messages] of
    [ConversationHistory] (conversation/history.py) *)

Module HistoryCache.
Import History.

(** [self._cache]: session id -> messages. *)
Definition cache := list (string * list message).

Definition cache_history (session_id : string) (ms : list message) (c : cache) : cache :=
  PyDict.set session_id ms c.

Definition get_cached_history (session_id : string) (c : cache) : option (list message) :=
  PyDict.get session_id c.

(** [if session_id: self._cache.pop(session_id, None) else: self._cache.clear()] *)
Definition clear_cache (session_id : option string) (c : cache) : cache :=
  match session_id with
  | Some sid => if Py.truthy session_id then PyDict.pop sid c else []
  | None => []
  end.

(** [m.get("role") == "user"] *)
Definition is_user (m : message) : bool :=
  match role m with Some r => String.eqb r "user" | None => false end.

Definition nl : string := String (ascii_of_nat 10) EmptyString.

Definition summary_text (old : list message) : string :=
  let u := length (filter is_user old) in
  let all_text := Py.join " " (map content old) in
  ("Previous conversation summary (" ++ Py.str_nat (length old) ++ " messages):" ++ nl
   ++ "- User questions: " ++ Py.str_nat u ++ nl
   ++ "- Assistant responses: " ++ Py.str_nat (length old - u) ++ nl
   ++ "- Topics discussed: " ++ substring 0 200 all_text ++ "...")%string.

(** [old_messages = messages[:-summary_threshold]],
    [recent_messages = messages[-summary_threshold:]]. *)
Definition summarize_old_messages (ms : list message) (summary_threshold : nat)
  : option string * list message :=
  if Nat.leb (length ms) summary_threshold then (None, ms)
  else (Some (summary_text (py_init summary_threshold ms)),
        py_tail summary_threshold ms).

End HistoryCache.

(* ------------------------------------------------------------------ *)
(** ** [ClaudeClient.send_message]'s request body, [stream_message]'s
    server-sent-event filter and the messages the tool loop sends
    (claude/client.py) *)

Module ClientWire.
Import Client.

(** [if tools:] *)
Definition tools_truthy (tools : option (list json)) : bool :=
  match tools with Some (_ :: _) => true | _ => false end.

(** [params[k]] for a key that is present. *)
Definition param (k : string) (d : list (string * json)) : json :=
  match PyDict.get k d with Some v => v | None => JNull end.

(** The [request_body] posted by [send_message]; [model], [max_tokens] and
    [temperature] are the client's attributes, [kwargs] the extra keyword
    arguments. *)
Definition send_message_body (model max_tokens temperature : json) (message : string)
    (system : option string) (tools : option (list json))
    (kwargs : list (string * json)) : list (string * json) :=
  let params := fold_left (fun d kv => PyDict.set (fst kv) (snd kv) d) kwargs
                  [("model", model); ("max_tokens", max_tokens);
                   ("temperature", temperature)] in
  let messages := JArr [JObj [("role", JStr "user"); ("content", JStr message)]] in
  let params := match system with
                | Some sy => if Py.truthy system then PyDict.set "system" (JStr sy) params
                             else params
                | None => params
                end in
  let params := match tools with
                | Some tl => if tools_truthy tools then PyDict.set "tools" (JArr tl) params
                             else params
                | None => params
                end in
  let body := [("model", param "model" params); ("max_tokens", param "max_tokens" params);
               ("messages", messages)] in
  let body := if PyDict.has "system" params
              then PyDict.set "system" (param "system" params) body else body in
  let body := if PyDict.has "tools" params
              then PyDict.set "tools" (param "tools" params) body else body in
  if PyDict.has "temperature" params
  then PyDict.set "temperature" (param "temperature" params) body else body.

(** [str.isspace] on Latin-1 characters. *)
Definition is_space (c : ascii) : bool :=
  let n := nat_of_ascii c in
  (Nat.leb 9 n && Nat.leb n 13) || (Nat.leb 28 n && Nat.leb n 32)
  || Nat.eqb n 133 || Nat.eqb n 160.

Fixpoint all_space (s : string) : bool :=
  match s with
  | EmptyString => true
  | String c r => is_space c && all_space r
  end.

(** The body of [async for line in response.aiter_lines(): ...] in
    [stream_message]: the chunks it yields. *)
Fixpoint sse_data (lines : list string) : list string :=
  match lines with
  | [] => []
  | line :: rest =>
      if negb (all_space line) then
        if String.prefix ":" line then sse_data rest
        else if String.prefix "data: " line then
          let data := substring 6 (String.length line - 6) line in
          if String.eqb data "[DONE]" then [] else data :: sse_data rest
        else sse_data rest
      else sse_data rest
  end.

(** [messages[-1]["content"]] *)
Definition last_content (messages : list (string * turn_content)) : turn_content :=
  snd (last messages ("user", Text EmptyString)).

(** The [message] argument of each [send_message] call the loop of
    [execute_with_tools] makes, in order. *)
Fixpoint tool_loop_sent (llm : nat -> option reply) (remaining i : nat)
    (messages : list (string * turn_content)) : list turn_content :=
  match remaining with
  | O => []
  | S k =>
      let sent := last_content messages in
      match llm i with
      | None => [sent]
      | Some r =>
          if is_tool_use r
          then sent :: tool_loop_sent llm k (S i)
                 (messages ++ [("assistant", Blocks (blocks r));
                               ("user", ToolResults (tool_results (blocks r)))])
          else [sent]
      end
  end.

Definition execute_with_tools_sent (llm : nat -> option reply) (message : string)
    (max_iterations : nat) : list turn_content :=
  tool_loop_sent llm max_iterations 0 [("user", Text message)].

End ClientWire.

(* ------------------------------------------------------------------ *)
(** ** Session titles (utils/title_generator.py) *)

Module Titles.
Import Client.

(** [title += block.get("text", "")] over the text blocks of the reply. *)
Definition response_text (bs : list block) : string :=
  fold_left (fun acc b => match b with
                          | TextBlock t => (acc ++ t)%string
                          | ToolUseBlock _ _ _ => acc
                          end) bs EmptyString.

Fixpoint lstrip (p : ascii -> bool) (s : string) : string :=
  match s with
  | EmptyString => EmptyString
  | String c r => if p c then lstrip p r else s
  end.

Definition str_rev (s : string) : string :=
  string_of_list_ascii (rev (list_ascii_of_string s)).

Definition rstrip (p : ascii -> bool) (s : string) : string :=
  str_rev (lstrip p (str_rev s)).

(** [s.strip()] and [s.strip(chars)] *)
Definition strip (p : ascii -> bool) (s : string) : string := rstrip p (lstrip p s).

(** The two quote characters stripped from the title (codes 34 and 39). *)
Definition is_quote (c : ascii) : bool :=
  Nat.eqb (nat_of_ascii c) 34 || Nat.eqb (nat_of_ascii c) 39.

(** [s[:max_length-3]], the index negative when [max_length < 3]. *)
Definition cut (max_length : nat) (s : string) : string :=
  if Nat.leb 3 max_length then substring 0 (max_length - 3) s
  else substring 0 (String.length s - (3 - max_length)) s.

(** [title.strip()] followed by stripping both quote characters. *)
Definition clean_title (bs : list block) : string :=
  strip is_quote (strip ClientWire.is_space (response_text bs)).

(** [generate_session_title], given the content blocks of the
    [send_message] reply, or [None] when that call raises (the exception
    is re-raised). *)
Definition generate_session_title (reply : option (list block)) (max_length : nat)
  : option string :=
  match reply with
  | None => None
  | Some bs =>
      let title := clean_title bs in
      let title := if Nat.ltb max_length (String.length title)
                   then (cut max_length title ++ "...")%string else title in
      Some (if String.eqb title EmptyString then "New Conversation" else title)
  end.

(** [s.split()]: the leading word of [s] (possibly empty) and the words
    after it. *)
Fixpoint split_aux (s : string) : string * list string :=
  match s with
  | EmptyString => (EmptyString, [])
  | String c r =>
      let '(w, ws) := split_aux r in
      if ClientWire.is_space c
      then (EmptyString, if String.eqb w EmptyString then ws else w :: ws)
      else (String c w, ws)
  end.

Definition split_ws (s : string) : list string :=
  let '(w, ws) := split_aux s in
  if String.eqb w EmptyString then ws else w :: ws.

Fixpoint rfind_aux (c : ascii) (s : string) (i : nat) (acc : option nat) : option nat :=
  match s with
  | EmptyString => acc
  | String d r => rfind_aux c r (S i) (if Ascii.eqb d c then Some i else acc)
  end.

(** [s.rfind(c)], [None] standing for [-1]. *)
Definition rfind (c : ascii) (s : string) : option nat := rfind_aux c s 0 None.

Definition create_fallback_title (user_message : string) (max_length : nat) : string :=
  let clean_message := Py.join " " (split_ws user_message) in
  if Nat.leb (String.length clean_message) max_length then clean_message
  else
    let truncated := cut max_length clean_message in
    let truncated :=
      match rfind (ascii_of_nat 32) truncated with
      | Some last_space =>
          if Nat.ltb (max_length / 2) last_space then substring 0 last_space truncated
          else truncated
      | None => truncated
      end in
    (truncated ++ "...")%string.

End Titles.

(* ------------------------------------------------------------------ *)
(** ** Concrete stores used by the examples and witnesses *)

Module Fixtures.

Definition app_a1 : app_row := mkApp "a1" "u1" "draft" "organic" None 0.

(** The spec's scenario: modules 4 and 5 missing, one pending document,
    one flagged field. *)
Definition scenario : store :=
  mkStore [app_a1]
    [mkDoc "d1" "a1" "tax_return" (Some "pending") (JObj [])]
    [mkField 1 "a1" 1 "total_revenue"
       (JObj [("_value", JStr "125000"); ("_audit_flagged", JBool true)]) "ocr" 900 0;
     mkField 2 "a1" 2 "license" (JStr "L-1") "proxy_entered" 1000 0;
     mkField 3 "a1" 3 "acres" (JStr "40") "proxy_entered" 1000 0]
    [] 4.

Definition all_modules (app : string) : list field_row :=
  map (fun m => mkField (Z.to_nat m) app m "f" (JStr "x") "proxy_entered" 1000 0)
      Certify.required_modules.

(** A complete application: five modules, one processed document, no flags. *)
Definition app_a2 : app_row := mkApp "a2" "u2" "in_review" "organic" (Some "n") 0.

Definition complete : store :=
  mkStore [app_a2]
    [mkDoc "d2" "a2" "tax_return" (Some "processed") (JObj [])]
    (all_modules "a2") [] 6.

(** Documents whose OCR failed, modules complete, nothing flagged. *)
Definition app_a3 : app_row := mkApp "a3" "u3" "draft" "organic" None 0.

Definition failed_docs : store :=
  mkStore [app_a3]
    [mkDoc "d3" "a3" "tax_return" (Some "failed") (JObj []);
     mkDoc "d4" "a3" "bank_statement" (Some "failed") (JObj [])]
    (all_modules "a3") [] 6.

(** An approved (locked) application with one scalar and one object field. *)
Definition app_a4 : app_row := mkApp "a4" "u4" "approved" "organic" None 0.

Definition ctx_u4 : option ctx := Some (mkCtx (Some "u4") None).

Definition locked : store :=
  mkStore [app_a4]
    [mkDoc "d5" "a4" "tax_return" (Some "processed") (JObj [])]
    [mkField 1 "a4" 1 "total_revenue" (JStr "125000") "ocr" 900 0;
     mkField 2 "a4" 1 "expenses" (JObj [("amount", JStr "40000")]) "ocr" 800 0]
    [] 3.

(** The same application before certification. *)
Definition app_a5 : app_row := mkApp "a5" "u5" "in_review" "organic" None 0.

Definition open_app : store :=
  mkStore [app_a5] []
    [mkField 1 "a5" 1 "total_revenue" (JStr "125000") "ocr" 900 0;
     mkField 2 "a5" 1 "expenses" (JObj [("amount", JStr "40000")]) "ocr" 800 0]
    [] 3.

(** A registry with one tool. *)
Definition one_tool : Registry.registry :=
  [("query_application", fun (_ : Registry.dict) (_ : option Registry.dict) =>
      Registry.Returns [("success", JBool true)])].

(** Eleven messages of eight characters: 22 estimated tokens. *)
Definition long_history : list History.message :=
  repeat (History.mkMsg (Some "user") "aaaaaaaa") 11.

End Fixtures.

(* ================================================================== *)
(** * Properties *)

Module CertifyFacts.
Import Certify Fixtures.

Example scenario_failures :
  validation_failures scenario "a1" =
    ["1 document(s) still pending processing";
     "Missing required modules: Module 4 (Sustainability Practices), Module 5 (Risk Management)";
     "1 field(s) flagged for audit - must be reviewed before certification"].
Proof. vm_compute. reflexivity. Qed.

Example scenario_certify :
  certify_application true (Some "a1") (Some (mkCtx (Some "u1") None)) 5 scenario
  = (ValidationFailed (validation_failures scenario "a1") "a1" "draft", scenario).
Proof. vm_compute. reflexivity. Qed.


Lemma failures_of_in (cs : list (bool * string)) (c : bool * string) :
  In c cs -> fst c = true -> In (snd c) (failures_of cs).
Proof.
  intros Hin Hf. unfold failures_of. apply in_flat_map.
  exists c. split; [exact Hin|]. rewrite Hf. left. reflexivity.
Qed.

(** C1: on a non-terminal application the caller may certify, a confirmed
    call with at least one failing check returns the message of every
    failing check in one [validation_failures] list, and the store is
    returned unchanged. *)
Theorem certify_reports_all_failures (arg : option string) (c : option ctx)
    (now : Z) (s : store) (id : string) (a : app_row) :
  target_app arg c = Some id ->
  Py.truthy (Some id) = true ->
  find_app s id = Some a ->
  unauthorized (ctx_user_id c) a = false ->
  is_terminal (app_status a) = false ->
  validation_failures s id <> [] ->
  certify_application true arg c now s
    = (ValidationFailed (validation_failures s id) (app_id a) (app_status a), s)
  /\ (forall chk, In chk (checks s id) -> fst chk = true ->
        In (snd chk) (validation_failures s id)).
Proof.
  intros Ht Htr Hf Hu Hterm Hne. split.
  - unfold certify_application. simpl negb. cbv zeta.
    rewrite Ht, Htr. simpl negb. cbv iota. rewrite Hf, Hu, Hterm.
    destruct (validation_failures s id) eqn:E; [contradiction|reflexivity].
  - intros chk Hin Hfail. apply failures_of_in; assumption.
Qed.

Lemma certify_reports_all_failures_witness :
  certify_application true (Some "a1") (Some (mkCtx (Some "u1") None)) 5 scenario
    = (ValidationFailed (validation_failures scenario "a1") "a1" "draft", scenario)
  /\ (forall chk, In chk (checks scenario "a1") -> fst chk = true ->
        In (snd chk) (validation_failures scenario "a1")).
Proof.
  apply (certify_reports_all_failures (Some "a1") (Some (mkCtx (Some "u1") None)) 5
           scenario "a1" app_a1); try reflexivity.
  vm_compute. discriminate.
Defined.

Lemma find_map_app (id : string) (f : app_row -> app_row) (s : store) :
  (forall a, app_id (f a) = app_id a) ->
  find_app (map_app id f s) id = option_map f (find_app s id).
Proof.
  intros Hf. unfold find_app, map_app. simpl.
  induction (apps s) as [|x r IH]; simpl; [reflexivity|].
  destruct (String.eqb (app_id x) id) eqn:E; simpl.
  - rewrite Hf, E. reflexivity.
  - rewrite E. exact IH.
Qed.

Lemma find_approve (id : string) (now : Z) (s : store) :
  find_app (approve id now s) id = option_map (fun a => approved_row a now) (find_app s id).
Proof. apply find_map_app. reflexivity. Qed.

Lemma find_add_audit (r : audit_row) (s : store) (id : string) :
  find_app (add_audit r s) id = find_app s id.
Proof. reflexivity. Qed.

(** C3 counterexample: a certification without a [user_id] in the session
    context succeeds but writes no audit-trail entry. *)
Lemma certify_no_audit_without_user :
  certify_application true (Some "a2") None 9 complete
    = (Certified "a2" "approved" "organic" "9" (pdf_url "a2"),
       approve "a2" 9 complete)
  /\ audit (snd (certify_application true (Some "a2") None 9 complete)) = [].
Proof. split; vm_compute; reflexivity. Qed.

(** C3 (amended): when every check passes the handler sets the status to
    [approved], appends the certification note, returns the stub
    certificate URL, and appends one audit-trail row when the session
    supplies a [user_id] (none otherwise); documents and module data are
    untouched.  Every other outcome leaves the store unchanged. *)
Theorem certify_writes_only_on_success :
  (forall conf arg c now s,
      is_certified (fst (certify_application conf arg c now s)) = false ->
      snd (certify_application conf arg c now s) = s)
  /\ (forall arg c now s id a,
      target_app arg c = Some id ->
      Py.truthy (Some id) = true ->
      find_app s id = Some a ->
      unauthorized (ctx_user_id c) a = false ->
      is_terminal (app_status a) = false ->
      validation_failures s id = [] ->
      exists s',
        certify_application true arg c now s
          = (Certified (app_id a) "approved" (app_cert_type a) (Py.str_Z now) (pdf_url id), s')
        /\ find_app s' id = Some (approved_row a now)
        /\ audit s' = audit s ++ audit_entries (ctx_user_id c) id a now
        /\ docs s' = docs s /\ fields s' = fields s).
Proof.
  split.
  - intros conf arg c now s. unfold certify_application. cbv zeta.
    destruct conf; cbn [negb]; [|reflexivity].
    destruct (target_app arg c) as [id|]; [|reflexivity].
    destruct (negb (Py.truthy (Some id))); [reflexivity|].
    destruct (find_app s id) as [a|]; [|reflexivity].
    destruct (unauthorized (ctx_user_id c) a); [reflexivity|].
    destruct (is_terminal (app_status a)); [reflexivity|].
    destruct (validation_failures s id); [discriminate|reflexivity].
  - intros arg c now s id a Ht Htr Hf Hu Hterm Hv.
    unfold certify_application. simpl negb. cbv zeta.
    rewrite Ht, Htr. simpl negb. cbv iota. rewrite Hf, Hu, Hterm, Hv.
    pose proof (find_approve id now s) as Hap. rewrite Hf in Hap. simpl in Hap.
    unfold audit_entries.
    destruct (Py.truthy (ctx_user_id c)) eqn:Eu.
    + destruct (ctx_user_id c) as [u|] eqn:Ec; [|discriminate].
      eexists. split; [|split; [|split; [|split]]].
      * rewrite find_add_audit, Hap. reflexivity.
      * rewrite find_add_audit. exact Hap.
      * reflexivity.
      * reflexivity.
      * reflexivity.
    + eexists. split; [|split; [|split; [|split]]].
      * rewrite Hap. reflexivity.
      * exact Hap.
      * simpl. rewrite app_nil_r. reflexivity.
      * reflexivity.
      * reflexivity.
Qed.

Lemma certify_writes_only_on_success_witness :
  exists s', certify_application true (Some "a2") (Some (mkCtx (Some "u2") None)) 9 complete
     = (Certified "a2" "approved" "organic" (Py.str_Z 9) (pdf_url "a2"), s')
   /\ find_app s' "a2" = Some (approved_row app_a2 9)
   /\ audit s' = audit complete ++ audit_entries (Some "u2") "a2" app_a2 9
   /\ docs s' = docs complete /\ fields s' = fields complete.
Proof.
  apply (proj2 certify_writes_only_on_success (Some "a2") (Some (mkCtx (Some "u2") None))
           9%Z complete "a2" app_a2); reflexivity.
Defined.

(** C10: the document gate counts only [pending], [processing] and [error]
    documents; when every document of the application has status
    [failed], the document checks report nothing and the failures are
    exactly those of the module and audit-flag checks. *)
Theorem certify_ignores_failed_documents (s : store) (id : string) :
  (forall d, In d (docs_of s id) -> doc_status d = Some "failed") ->
  docs_of s id <> [] ->
  validation_failures s id = failures_of [c_modules s id; c_flagged s id].
Proof.
  intros Hall Hne.
  assert (Hz : forall st, String.eqb st "failed" = false -> status_count s id st = 0).
  { intros st Hst. unfold status_count. clear Hne. revert Hall.
    induction (docs_of s id) as [|d r IH]; intros Hall; [reflexivity|].
    simpl. rewrite (Hall d (or_introl eq_refl)).
    rewrite String.eqb_sym, Hst.
    apply IH. intros d' Hd'. apply Hall. right. exact Hd'. }
  unfold validation_failures, checks, c_pending, c_processing, c_error, c_no_docs.
  rewrite !Hz by reflexivity.
  assert (Ht : Nat.eqb (total_docs s id) 0 = false).
  { unfold total_docs. destruct (docs_of s id); [contradiction|reflexivity]. }
  rewrite Ht. unfold failures_of. simpl. rewrite app_nil_r. reflexivity.
Qed.

Lemma certify_ignores_failed_documents_witness :
  validation_failures failed_docs "a3" = failures_of [c_modules failed_docs "a3"; c_flagged failed_docs "a3"]
  /\ validation_failures failed_docs "a3" = [].
Proof.
  split.
  - apply certify_ignores_failed_documents.
    + intros d Hd. vm_compute in Hd. destruct Hd as [<-|[<-|[]]]; reflexivity.
    + vm_compute. discriminate.
  - vm_compute. reflexivity.
Defined.

End CertifyFacts.

Module LockFacts.
Import Fixtures.

(** C2 (divergence): on an approved application [update_module] returns
    [application_locked] and writes nothing, while [request_audit], which
    has no status check, accepts a field id that has no row: it returns
    success with no field flagged, appends an [audit_trail] row and bumps
    the application's [updated_at]. *)
Theorem request_audit_ignores_lock :
  UpdateModule.update_module 1 "total_revenue" "1" (Some "a4") ctx_u4 7 locked
    = (UpdateModule.Err "application_locked", locked)
  /\ RequestAudit.request_audit "low OCR confidence" (Some "a4") None
       (Some ["farm_size_hectares"]) ctx_u4 7 locked
     = (RequestAudit.Flagged 0 false "low OCR confidence" [],
        touch_app "a4" 7
          (add_audit (mkAudit "a4" "u4" "audit_requested" (Some "farm_size_hectares")
                        "low OCR confidence" 7) locked))
  /\ snd (RequestAudit.request_audit "low OCR confidence" (Some "a4") None
            (Some ["farm_size_hectares"]) ctx_u4 7 locked) <> locked.
Proof.
  split; [vm_compute; reflexivity|]. split; [vm_compute; reflexivity|].
  vm_compute. intros H. injection H. intros. discriminate.
Qed.

(** [update_module] on a terminal application: [application_locked] and the
    store unchanged, for every module, field and value. *)
Lemma update_module_locked (m : Z) (f v : string) (arg : option string)
    (c : option ctx) (now : Z) (s : store) (id : string) (a : app_row) (mn : string) :
  UpdateModule.MODULE_NAMES m = Some mn ->
  target_app arg c = Some id -> Py.truthy (Some id) = true ->
  find_app s id = Some a -> unauthorized (ctx_user_id c) a = false ->
  is_terminal (app_status a) = true ->
  UpdateModule.update_module m f v arg c now s = (UpdateModule.Err "application_locked", s).
Proof.
  intros Hm Ht Htr Hf Hu Hterm. unfold UpdateModule.update_module.
  rewrite Hm. cbv zeta. rewrite Ht, Htr. simpl negb. cbv iota.
  rewrite Hf, Hu, Hterm. reflexivity.
Qed.

End LockFacts.

Module AuditFacts.
Import Fixtures RequestAudit.

(** The field loop raises at any listed id that has a row. *)
Lemma flag_fields_row_fails (ids : list string) (reason : string) (now : Z) (id : string)
    (count : nat) (details : list string) (s : store) (f : string) :
  In f ids -> find_by_field s id f <> None ->
  flag_fields ids reason now id count details s = None.
Proof.
  induction ids as [|g rest IH]; simpl; [intros []|].
  intros Hin Hr. destruct (find_by_field s id g) eqn:E; [reflexivity|].
  destruct Hin as [<-|Hin]; [contradiction|]. apply IH; assumption.
Qed.

(** C8 (divergence): a [request_audit] call that lists a field id having a
    [module_data] row, on an application the caller may access and with
    no document id, returns [database_error] and writes nothing: the
    flagging [UPDATE] is never prepared, so no value is ever wrapped or
    flagged. *)
Theorem request_audit_existing_field_fails (reason : string) (arg doc : option string)
    (l : list string) (c : option ctx) (now : Z) (s : store) (id : string) (a : app_row)
    (f : string) :
  target_app arg c = Some id -> Py.truthy (Some id) = true ->
  find_app s id = Some a -> unauthorized (ctx_user_id c) a = false ->
  Py.truthy doc = false -> In f l -> find_by_field s id f <> None ->
  request_audit reason arg doc (Some l) c now s = (Err "database_error", s).
Proof.
  intros Ht Htr Hf Hu Hd Hin Hr.
  destruct l as [|g l']; [destruct Hin|].
  unfold request_audit. cbv zeta. rewrite Ht, Htr, Hd. cbn [negb andb ids_truthy].
  rewrite Hf, Hu.
  rewrite (flag_fields_row_fails _ _ _ _ _ _ _ _ Hin Hr).
  destruct doc; reflexivity.
Qed.

(** The spec's scenario: flagging the plain string ["125000"] returns
    [database_error] and the stored value stays ["125000"], with no flag. *)
Lemma request_audit_existing_field_fails_witness :
  request_audit "low OCR confidence" (Some "a5") None (Some ["total_revenue"])
      (Some (mkCtx (Some "u5") None)) 7 open_app = (Err "database_error", open_app)
  /\ option_map f_value (find_by_field open_app "a5" "total_revenue") = Some (JStr "125000").
Proof.
  split; [|reflexivity].
  apply (request_audit_existing_field_fails "low OCR confidence" (Some "a5") None
           ["total_revenue"] (Some (mkCtx (Some "u5") None)) 7 open_app "a5" app_a5
           "total_revenue"); try reflexivity.
  - left. reflexivity.
  - discriminate.
Defined.

End AuditFacts.

Module UpdateFacts.
Import UpdateModule Fixtures.

Section ListFacts.
Context {A : Type} (p : A -> bool) (h : A -> A).

Lemma find_map_pres (l : list A) :
  (forall y, p (h y) = p y) -> find p (map h l) = option_map h (find p l).
Proof.
  intros Hp. induction l as [|x r IH]; simpl; [reflexivity|].
  rewrite Hp. destruct (p x); [reflexivity|exact IH].
Qed.

Lemma count_map_pres (l : list A) :
  (forall y, p (h y) = p y) -> length (filter p (map h l)) = length (filter p l).
Proof.
  intros Hp. induction l as [|x r IH]; simpl; [reflexivity|].
  rewrite Hp. destruct (p x); simpl; [rewrite IH|]; auto.
Qed.

Lemma find_none_count (l : list A) : find p l = None -> length (filter p l) = 0.
Proof.
  induction l as [|x r IH]; simpl; [reflexivity|].
  destruct (p x); [discriminate|exact IH].
Qed.

Lemma find_some_count (l : list A) (x : A) : find p l = Some x -> 1 <= length (filter p l).
Proof.
  induction l as [|y r IH]; simpl; [discriminate|].
  destruct (p y); simpl; [lia|]. intros H. apply IH in H. exact H.
Qed.

Lemma find_app_last (l : list A) (x : A) :
  find p l = None -> p x = true -> find p (l ++ [x]) = Some x.
Proof.
  induction l as [|y r IH]; simpl; intros Hn Hx.
  - rewrite Hx. reflexivity.
  - destruct (p y); [discriminate|]. apply IH; assumption.
Qed.

Lemma count_app_last (l : list A) (x : A) :
  p x = true -> length (filter p (l ++ [x])) = S (length (filter p l)).
Proof.
  intros Hx. rewrite filter_app, length_app. simpl. rewrite Hx. simpl. lia.
Qed.
End ListFacts.

(** An accepted call on an unlocked application: edit the first row of the
    key, or insert one, then touch the application. *)
Lemma update_module_unlocked (m : Z) (mn f v : string) (arg : option string)
    (c : option ctx) (now : Z) (s : store) (id : string) (a : app_row) :
  MODULE_NAMES m = Some mn ->
  target_app arg c = Some id -> Py.truthy (Some id) = true ->
  find_app s id = Some a -> unauthorized (ctx_user_id c) a = false ->
  is_terminal (app_status a) = false ->
  update_module m f v arg c now s =
    match find_field s id m f with
    | Some row => (Updated f mn m (Some (f_value row)) v "proxy_edited",
                   touch_app id now (map_field (f_id row) (edit_row v now) s))
    | None => (Updated f mn m None v "proxy_entered",
               touch_app id now (insert_row id m f v now s))
    end.
Proof.
  intros Hm Ht Htr Hf Hu Hterm. unfold update_module.
  rewrite Hm. cbv zeta. rewrite Ht, Htr. simpl negb. cbv iota.
  rewrite Hf, Hu, Hterm. destruct (find_field s id m f); reflexivity.
Qed.

Definition touched (now : Z) (a : app_row) : app_row :=
  mkApp (app_id a) (app_user a) (app_status a) (app_cert_type a) (app_notes a) now.

Lemma find_touch (id : string) (now : Z) (s : store) :
  find_app (touch_app id now s) id = option_map (touched now) (find_app s id).
Proof. apply CertifyFacts.find_map_app. reflexivity. Qed.

Lemma key_edit (id : string) (m : Z) (f v : string) (now : Z) (k : nat) (y : field_row) :
  key_match id m f ((fun r => if Nat.eqb (f_id r) k then edit_row v now r else r) y)
  = key_match id m f y.
Proof. cbv beta. destruct (Nat.eqb (f_id y) k); reflexivity. Qed.

Lemma key_self (id : string) (m : Z) (f : string) (r : field_row) :
  f_app r = id -> f_module r = m -> f_field r = f -> key_match id m f r = true.
Proof.
  intros <- <- <-. unfold key_match.
  rewrite String.eqb_refl, Z.eqb_refl, String.eqb_refl. reflexivity.
Qed.

Lemma edit_step (s : store) (id id' : string) (m : Z) (f v : string) (t t' : Z)
    (row : field_row) :
  find_field s id m f = Some row ->
  find_field (touch_app id' t' (map_field (f_id row) (edit_row v t) s)) id m f
    = Some (edit_row v t row)
  /\ count_key (touch_app id' t' (map_field (f_id row) (edit_row v t) s)) id m f
     = count_key s id m f.
Proof.
  intros Hrow. unfold find_field, count_key in *. simpl. split.
  - rewrite find_map_pres by (intros y; apply key_edit).
    rewrite Hrow. simpl. rewrite Nat.eqb_refl. reflexivity.
  - apply count_map_pres. intros y. apply key_edit.
Qed.

Lemma insert_step (s : store) (id id' : string) (m : Z) (f v : string) (t t' : Z) :
  find_field s id m f = None ->
  find_field (touch_app id' t' (insert_row id m f v t s)) id m f
    = Some (mkField (next_id s) id m f (JStr v) "proxy_entered" 1000 t)
  /\ count_key (touch_app id' t' (insert_row id m f v t s)) id m f
     = S (count_key s id m f).
Proof.
  intros Hn. unfold find_field, count_key in *. simpl. split.
  - apply find_app_last; [exact Hn|]. apply key_self; reflexivity.
  - apply count_app_last. apply key_self; reflexivity.
Qed.

(** C7: two accepted calls on the same (application, module, field) key of
    an unlocked application leave exactly one row for the key, holding the
    second value with source [proxy_edited] and confidence [1.0]; the second
    call reports the first call's value as [old_value]; a first call on an
    absent field inserts with [proxy_entered] and reports no old value.
    (The key holds at most one row beforehand, as [update_module] itself
    never inserts a second one.) *)
Theorem update_module_twice (m : Z) (mn f v1 v2 : string) (arg : option string)
    (c : option ctx) (t1 t2 : Z) (s : store) (id : string) (a : app_row) :
  MODULE_NAMES m = Some mn ->
  target_app arg c = Some id -> Py.truthy (Some id) = true ->
  find_app s id = Some a -> unauthorized (ctx_user_id c) a = false ->
  is_terminal (app_status a) = false ->
  count_key s id m f <= 1 ->
  let s1 := snd (update_module m f v1 arg c t1 s) in
  let r2 := fst (update_module m f v2 arg c t2 s1) in
  let s2 := snd (update_module m f v2 arg c t2 s1) in
  count_key s2 id m f = 1
  /\ (exists row, find_field s2 id m f = Some row /\ f_value row = JStr v2
                  /\ f_source row = "proxy_edited" /\ f_conf row = 1000%Z)
  /\ r2 = Updated f mn m (Some (JStr v1)) v2 "proxy_edited"
  /\ (find_field s id m f = None ->
      fst (update_module m f v1 arg c t1 s) = Updated f mn m None v1 "proxy_entered").
Proof.
  intros Hm Ht Htr Hf Hu Hterm Hc s1 r2 s2.
  assert (E1 := update_module_unlocked m mn f v1 arg c t1 s id a Hm Ht Htr Hf Hu Hterm).
  (* after the first call: the application is only touched, and the key
     has exactly one row, holding [v1] *)
  assert (Hs1 : find_app s1 id = Some (touched t1 a)
                /\ exists row1, find_field s1 id m f = Some row1 /\ f_value row1 = JStr v1
                                /\ count_key s1 id m f = 1).
  { unfold s1. rewrite E1.
    destruct (find_field s id m f) as [row|] eqn:Er; simpl.
    - split; [rewrite find_touch;
                change (find_app (map_field (f_id row) (edit_row v1 t1) s) id) with (find_app s id);
                rewrite Hf; reflexivity|].
      destruct (edit_step s id id m f v1 t1 t1 row Er) as [Hff Hcnt].
      exists (edit_row v1 t1 row). split; [exact Hff|]. split; [reflexivity|].
      rewrite Hcnt. pose proof (find_some_count _ _ _ Er). unfold count_key, find_field in *. lia.
    - split; [rewrite find_touch;
                change (find_app (insert_row id m f v1 t1 s) id) with (find_app s id);
                rewrite Hf; reflexivity|].
      destruct (insert_step s id id m f v1 t1 t1 Er) as [Hff Hcnt].
      eexists. split; [exact Hff|]. split; [reflexivity|].
      rewrite Hcnt. pose proof (find_none_count _ _ Er). unfold count_key, find_field in *. lia. }
  destruct Hs1 as [Ha1 [row1 [Hr1 [Hv1 Hc1]]]].
  assert (E2 := update_module_unlocked m mn f v2 arg c t2 s1 id (touched t1 a)
                  Hm Ht Htr Ha1 Hu Hterm).
  rewrite Hr1 in E2.
  destruct (edit_step s1 id id m f v2 t2 t2 row1 Hr1) as [Hff2 Hcnt2].
  unfold r2, s2. rewrite E2. simpl.
  split; [rewrite Hcnt2; exact Hc1|].
  split; [exists (edit_row v2 t2 row1); repeat split; exact Hff2|].
  split; [rewrite Hv1; reflexivity|].
  intros Hn. rewrite E1, Hn. reflexivity.
Qed.

Lemma update_module_twice_witness :
  let s1 := snd (update_module 1 "tax_year" "2023" (Some "a5") (Some (mkCtx (Some "u5") None)) 1 open_app) in
  let r2 := fst (update_module 1 "tax_year" "2024" (Some "a5") (Some (mkCtx (Some "u5") None)) 2 s1) in
  let s2 := snd (update_module 1 "tax_year" "2024" (Some "a5") (Some (mkCtx (Some "u5") None)) 2 s1) in
  count_key s2 "a5" 1 "tax_year" = 1
  /\ (exists row, find_field s2 "a5" 1 "tax_year" = Some row /\ f_value row = JStr "2024"
                  /\ f_source row = "proxy_edited" /\ f_conf row = 1000%Z)
  /\ r2 = Updated "tax_year" "financial" 1 (Some (JStr "2023")) "2024" "proxy_edited"
  /\ (find_field open_app "a5" 1 "tax_year" = None ->
      fst (update_module 1 "tax_year" "2023" (Some "a5") (Some (mkCtx (Some "u5") None)) 1 open_app)
      = Updated "tax_year" "financial" 1 None "2023" "proxy_entered").
Proof.
  apply (update_module_twice 1 "financial" "tax_year" "2023" "2024" (Some "a5")
           (Some (mkCtx (Some "u5") None)) 1 2 open_app "a5" app_a5);
    try reflexivity.
  vm_compute. lia.
Defined.

End UpdateFacts.

Module RegistryFacts.
Import Registry Fixtures.

(** C4 (divergence): an unknown tool name yields a [tool_not_found]
    envelope listing the registered names, but without the [timestamp]
    every other outcome carries. *)
Theorem tool_not_found_has_no_timestamp :
  execute_tool one_tool "no_such_tool" [] None 10 12
    = mkEnv false None (Some "tool_not_found") (Some ["query_application"]) 2
            "no_such_tool" None
  /\ timestamp (execute_tool one_tool "query_application" [] None 10 12) = Some "12".
Proof. split; vm_compute; reflexivity. Qed.

(** The other outcomes of [execute_tool]: every call returns an envelope
    carrying the tool name and the elapsed time, classified by the
    handler's outcome, with a timestamp unless the name is unknown. *)
Lemma execute_tool_classifies (tools : registry) (name : string) (input : dict)
    (c : option dict) (t0 t1 : Z) :
  let e := execute_tool tools name input c t0 t1 in
  tool_name e = name /\ execution_time e = (t1 - t0)%Z /\
  match lookup name tools with
  | None => error_type e = Some "tool_not_found" /\ available_tools e = Some (map fst tools)
            /\ success e = false /\ timestamp e = None
  | Some h =>
      timestamp e = Some (Py.str_Z t1) /\
      match h input (ctx_truthy c) with
      | Returns r => result e = Some r /\ success e = negb (has_key "error" r)
      | RaisesTypeError _ => error_type e = Some "invalid_input" /\ success e = false
      | RaisesOther _ => error_type e = Some "execution_error" /\ success e = false
      end
  end.
Proof.
  cbv zeta. unfold execute_tool.
  destruct (lookup name tools) as [h|]; [|repeat split].
  destruct (h input (ctx_truthy c)); repeat split.
Qed.

End RegistryFacts.

Module HistoryFacts.
Import History Fixtures.

Lemma total_chars_app (l1 l2 : list message) :
  total_chars (l1 ++ l2) = total_chars l1 + total_chars l2.
Proof. induction l1 as [|m r IH]; simpl; [reflexivity|]. rewrite IH. lia. Qed.

Lemma estimate_mono (l1 l2 : list message) :
  estimate_tokens l2 <= estimate_tokens (l1 ++ l2).
Proof.
  unfold estimate_tokens. rewrite total_chars_app.
  apply Nat.Div0.div_le_mono. lia.
Qed.

(** The backward loop prepends a contiguous run [P] of the older messages
    (their last ones, [older = Q ++ P]), stays within budget when it starts
    within budget, adds nothing when it starts above it, and stops only at
    a message that would exceed the budget. *)
Lemma prepend_older_shape (max : nat) (rs acc : list message) :
  exists P Q,
    prepend_older max rs acc = P ++ acc /\ rev rs = Q ++ P
    /\ (estimate_tokens acc <= max -> estimate_tokens (P ++ acc) <= max)
    /\ (max < estimate_tokens acc -> P = [])
    /\ (forall Q' m, Q = Q' ++ [m] -> max < estimate_tokens (m :: P ++ acc)).
Proof.
  revert acc. induction rs as [|msg rest IH]; intros acc; simpl.
  - exists [], []. split; [reflexivity|]. split; [reflexivity|].
    split; [intros H; exact H|]. split; [intros; reflexivity|].
    intros Q' m HQ. destruct Q'; discriminate.
  - destruct (Nat.leb (estimate_tokens (msg :: acc)) max) eqn:E.
    + apply Nat.leb_le in E.
      destruct (IH (msg :: acc)) as [P [Q [H1 [H2 [H3 [H4 H5]]]]]].
      exists (P ++ [msg]), Q. rewrite <- app_assoc. simpl.
      repeat split.
      * exact H1.
      * rewrite H2, app_assoc. reflexivity.
      * intros _. apply H3. exact E.
      * intros Hgt. pose proof (estimate_mono [msg] acc). simpl in H. lia.
      * exact H5.
    + apply Nat.leb_gt in E.
      exists [], (rev rest ++ [msg]). simpl. repeat split.
      * rewrite app_nil_r. reflexivity.
      * intros; assumption.
      * intros Q' m HQ. apply app_inj_tail in HQ. destruct HQ as [_ <-]. exact E.
Qed.

Lemma older_window_split (keep : nat) (ms : list message) :
  ms = older_part keep ms ++ kept_window keep ms.
Proof.
  unfold older_part, kept_window, py_init, py_tail.
  destruct (Nat.ltb keep (length ms)); [|reflexivity].
  destruct (Nat.eqb keep 0); [reflexivity|].
  symmetry. apply firstn_skipn.
Qed.

(** C5 counterexample: with a budget of 10 tokens, eleven 8-character
    messages (22 tokens) are cut to their last 10, which still weigh 20
    tokens: the kept window alone exceeds the budget. *)
Lemma truncate_exceeds_budget :
  10 < estimate_tokens long_history
  /\ truncate_to_fit 10 long_history 10 = skipn 1 long_history
  /\ estimate_tokens (truncate_to_fit 10 long_history 10) = 20.
Proof. split; [vm_compute; lia|split; vm_compute; reflexivity]. Qed.

(** C5 (amended): above the budget, the result is the window
    [messages[-keep_most_recent:]] verbatim, preceded by a contiguous run of
    the messages just before it, added one at a time and stopping at the
    first that would exceed the budget; the whole is a suffix of the input.
    The window is kept unconditionally, so the result is within the budget
    exactly when the window alone is; when the window alone exceeds the
    budget, nothing is prepended and the result is the window. *)
Theorem truncate_to_fit_window (max keep : nat) (ms : list message) :
  max < estimate_tokens ms ->
  let w := kept_window keep ms in
  let r := truncate_to_fit max ms keep in
  (keep = 0 -> w = ms)
  /\ (0 < keep -> length w = Nat.min keep (length ms))
  /\ (exists P Q, r = P ++ w /\ ms = Q ++ r
        /\ (forall Q' m, Q = Q' ++ [m] -> max < estimate_tokens (m :: r))
        /\ (max < estimate_tokens w -> P = []))
  /\ (estimate_tokens r <= max <-> estimate_tokens w <= max)
  /\ (max < estimate_tokens w -> r = w).
Proof.
  intros Hgt w r.
  assert (Hne : ms <> []) by (intros ->; unfold estimate_tokens, total_chars in Hgt; simpl in Hgt; lia).
  assert (Hr : r = prepend_older max (rev (older_part keep ms)) w).
  { unfold r, truncate_to_fit. destruct ms as [|m0 rest]; [contradiction|].
    destruct (Nat.leb (estimate_tokens (m0 :: rest)) max) eqn:E.
    - apply Nat.leb_le in E. lia.
    - reflexivity. }
  destruct (prepend_older_shape max (rev (older_part keep ms)) w)
    as [P [Q [H1 [H2 [H3 [H4 H5]]]]]].
  rewrite rev_involutive in H2. rewrite <- Hr in H1.
  split; [|split; [|split; [|split]]].
  - intros ->. unfold w, kept_window, py_tail. simpl.
    destruct (Nat.ltb 0 (length ms)); reflexivity.
  - intros Hk. unfold w, kept_window, py_tail.
    destruct (Nat.ltb keep (length ms)) eqn:E.
    + apply Nat.ltb_lt in E. destruct (Nat.eqb keep 0) eqn:E0.
      * apply Nat.eqb_eq in E0. lia.
      * rewrite length_skipn. lia.
    + apply Nat.ltb_ge in E. lia.
  - exists P, Q. split; [exact H1|]. split.
    + rewrite H1. rewrite (older_window_split keep ms) at 1. rewrite H2.
      rewrite <- app_assoc. reflexivity.
    + split; [intros Q' m HQ; rewrite H1; apply (H5 Q' m HQ)|exact H4].
  - split.
    + intros Hle. rewrite H1 in Hle. pose proof (estimate_mono P w). unfold w in *. lia.
    + intros Hle. rewrite H1. apply H3. exact Hle.
  - intros Hw. rewrite H1, (H4 Hw). reflexivity.
Qed.

Lemma truncate_to_fit_window_witness :
  let w := kept_window 10 long_history in
  let r := truncate_to_fit 10 long_history 10 in
  (10 = 0 -> w = long_history)
  /\ (0 < 10 -> length w = Nat.min 10 (length long_history))
  /\ (exists P Q, r = P ++ w /\ long_history = Q ++ r
        /\ (forall Q' m, Q = Q' ++ [m] -> 10 < estimate_tokens (m :: r))
        /\ (10 < estimate_tokens w -> P = []))
  /\ (estimate_tokens r <= 10 <-> estimate_tokens w <= 10)
  /\ (10 < estimate_tokens w -> r = w).
Proof. apply truncate_to_fit_window. vm_compute. lia. Defined.

Lemma valid_role_some (r : option string) : valid_role r = true -> exists x, r = Some x.
Proof. destruct r as [x|]; [eauto|discriminate]. Qed.

(** The loop of [validate_alternation] finds nothing exactly on an
    alternating sequence whose head differs from the previous role. *)
Lemma alternation_loop_none (l : list message) :
  forall prev idx,
    alternation_loop prev idx l = None <->
    alternating l /\ (forall p m, prev = Some p -> hd_error l = Some m -> role m <> Some p).
Proof.
  induction l as [|m rest IH]; intros prev idx; simpl.
  - split; [intros _; split; [constructor|discriminate]|reflexivity].
  - destruct (valid_role (role m)) eqn:V; simpl.
    2:{ split; [discriminate|]. intros [Ha _].
        inversion Ha; subst; congruence. }
    destruct (valid_role_some _ V) as [r Hr]. rewrite Hr.
    assert (Hstep : alternation_loop (Some r) (S idx) rest = None <->
                    alternating (m :: rest)).
    { rewrite IH. split.
      - intros [Ha Hh]. destruct rest as [|m2 rest'].
        + constructor. exact V.
        + constructor; [exact V| |exact Ha].
          rewrite Hr. intros E. apply (Hh r m2); [reflexivity|reflexivity|].
          rewrite <- E. reflexivity.
      - intros Ha. inversion Ha; subst.
        + split; [constructor|]. intros p m' _ H. discriminate.
        + split; [assumption|]. intros p m' Hp Hm'. injection Hp as <-.
          injection Hm' as <-. rewrite <- Hr. intros E. congruence. }
    destruct prev as [p|].
    + destruct (String.eqb r p) eqn:Erp.
      * apply String.eqb_eq in Erp. subst p. split; [discriminate|].
        intros [_ Hh]. exfalso. apply (Hh r m); [reflexivity|reflexivity|exact Hr].
      * rewrite Hstep. split.
        -- intros Ha. split; [exact Ha|]. intros p' m' Hp Hm'.
           injection Hp as <-. injection Hm' as <-. rewrite Hr. intros E.
           injection E as E. subst. rewrite String.eqb_refl in Erp. discriminate.
        -- intros [Ha _]. exact Ha.
    + rewrite Hstep. split.
      * intros Ha. split; [exact Ha|]. intros p' m' Hp. discriminate.
      * intros [Ha _]. exact Ha.
Qed.

Lemma validate_alternation_spec (l : list message) :
  fst (validate_alternation l) = true <-> strictly_alternates_from_user l.
Proof.
  unfold strictly_alternates_from_user, validate_alternation.
  destruct l as [|m rest].
  - simpl. split; [intros _; split; [constructor|discriminate]|reflexivity].
  - pose proof (alternation_loop_none (m :: rest) None 0) as H.
    destruct (alternation_loop None 0 (m :: rest)) as [e|] eqn:E.
    + simpl. split; [discriminate|]. intros [Ha _].
      assert (Hn : Some e = None) by (apply H; split; [exact Ha|discriminate]).
      discriminate.
    + destruct H as [H _]. destruct (H eq_refl) as [Ha _].
      destruct (role m) as [r|] eqn:Er; simpl.
      * destruct (String.eqb r "user") eqn:Eu; simpl.
        -- apply String.eqb_eq in Eu. subst r. split; [intros _|reflexivity].
           split; [exact Ha|]. intros m' Hm'. injection Hm' as <-. exact Er.
        -- split; [discriminate|]. intros [_ Hh]. rewrite (Hh m eq_refl) in Er.
           injection Er as Er. subst r. rewrite String.eqb_refl in Eu. discriminate.
      * split; [discriminate|]. intros [_ Hh]. rewrite (Hh m eq_refl) in Er. discriminate.
Qed.

(** C6: the sequence [prepare_for_api] checks (the truncated, formatted
    history plus the appended new user message) is either returned, and
    then strictly alternates starting with [user], or rejected with a
    [ValueError], and then it does not. *)
Theorem prepare_for_api_alternation (max : nat) (ms : list message)
    (new_user_message : option string) (auto_truncate : bool) :
  let l := prepared max ms new_user_message auto_truncate in
  (prepare_for_api max ms new_user_message auto_truncate = inl l
     /\ strictly_alternates_from_user l)
  \/ ((exists e, prepare_for_api max ms new_user_message auto_truncate = inr e)
      /\ ~ strictly_alternates_from_user l).
Proof.
  cbv zeta. unfold prepare_for_api.
  pose proof (validate_alternation_spec (prepared max ms new_user_message auto_truncate)) as H.
  destruct (validate_alternation (prepared max ms new_user_message auto_truncate))
    as [[|] e]; simpl in H.
  - left. split; [reflexivity|]. apply H. reflexivity.
  - right. split; [eexists; reflexivity|]. intros Hs. apply H in Hs. discriminate.
Qed.

(** Two consecutive [user] messages are rejected. *)
Example prepare_two_users :
  prepare_for_api 100 [mkMsg (Some "user") "hi"] (Some "again") true
    = inr "Invalid message sequence: Non-alternating roles at index 1: user -> user".
Proof. vm_compute. reflexivity. Qed.

End HistoryFacts.

Module ClientFacts.
Import Client.

Definition tool_reply (i : nat) : reply :=
  mkReply (Some "tool_use") [ToolUseBlock (Py.str_nat i) "query_application" "{}"].

(** An LLM that never answers in text, and one that answers at the third call. *)
Definition always_tools (i : nat) : option reply := Some (tool_reply i).

Definition text_at_2 (i : nat) : option reply :=
  if Nat.ltb i 2 then Some (tool_reply i)
  else Some (mkReply (Some "end_turn") [TextBlock "done"]).

Lemma tool_loop_exceeded (llm : nat -> option reply) :
  forall n i msgs,
    (forall j, j < n -> exists r, llm (i + j) = Some r /\ is_tool_use r = true) ->
    exists e, tool_loop llm n i msgs = LoopExceeded e.
Proof.
  induction n as [|n IH]; intros i msgs H; simpl; [eauto|].
  destruct (H 0 ltac:(lia)) as [r [Hr Ht]]. rewrite Nat.add_0_r in Hr.
  rewrite Hr, Ht. apply IH. intros j Hj.
  replace (S i + j) with (i + S j) by lia. apply H. lia.
Qed.

Lemma tool_loop_stops (llm : nat -> option reply) :
  forall k n i msgs,
    k < n ->
    (forall j, j < k -> exists r, llm (i + j) = Some r /\ is_tool_use r = true) ->
    (forall r, llm (i + k) = Some r -> is_tool_use r = false ->
       tool_loop llm n i msgs = Returned r)
    /\ (llm (i + k) = None -> tool_loop llm n i msgs = SendFailed).
Proof.
  induction k as [|k IH]; intros n i msgs Hk H.
  - rewrite Nat.add_0_r. destruct n as [|n]; [lia|]. simpl. split.
    + intros r Hr Ht. rewrite Hr, Ht. reflexivity.
    + intros Hn. rewrite Hn. reflexivity.
  - destruct n as [|n]; [lia|]. simpl.
    destruct (H 0 ltac:(lia)) as [r0 [Hr0 Ht0]]. rewrite Nat.add_0_r in Hr0.
    rewrite Hr0, Ht0.
    replace (i + S k) with (S i + k) by lia.
    apply IH; [lia|].
    intros j Hj. replace (S i + j) with (i + S j) by lia. apply H. lia.
Qed.

(** C9 counterexample: when the first [send_message] call raises, the
    loop neither returns a reply nor raises the loop-exceeded error; the
    call's exception propagates instead. *)
Lemma send_failure_propagates :
  execute_with_tools (fun _ => None) "hello" 5 = SendFailed.
Proof. reflexivity. Qed.

(** C9 (amended): with the default cap of 5, if the first [k < 5] replies
    request tool use and reply [k] is not a tool-use reply, that reply is
    returned; if reply [k] cannot be obtained, the [send_message] failure
    propagates; if all 5 replies request tool use, the loop raises the
    "exceeded max iterations" error. *)
Theorem execute_with_tools_outcomes (llm : nat -> option reply) (message : string) :
  ((forall j, j < 5 -> exists r, llm j = Some r /\ is_tool_use r = true) ->
     exists e, execute_with_tools llm message 5 = LoopExceeded e)
  /\ (forall k, k < 5 ->
        (forall j, j < k -> exists r, llm j = Some r /\ is_tool_use r = true) ->
        (forall r, llm k = Some r -> is_tool_use r = false ->
           execute_with_tools llm message 5 = Returned r)
        /\ (llm k = None -> execute_with_tools llm message 5 = SendFailed)).
Proof.
  split.
  - intros H. apply tool_loop_exceeded. exact H.
  - intros k Hk H. apply (tool_loop_stops llm k 5 0 [("user", Text message)] Hk).
    intros j Hj. apply H. exact Hj.
Qed.

Lemma execute_with_tools_outcomes_witness :
  (exists e, execute_with_tools always_tools "hi" 5 = LoopExceeded e)
  /\ execute_with_tools text_at_2 "hi" 5 = Returned (mkReply (Some "end_turn") [TextBlock "done"]).
Proof.
  split.
  - apply (proj1 (execute_with_tools_outcomes always_tools "hi")).
    intros j _. exists (tool_reply j). split; reflexivity.
  - apply (proj2 (execute_with_tools_outcomes text_at_2 "hi") 2 ltac:(lia)).
    + intros j Hj. exists (tool_reply j). unfold text_at_2.
      apply Nat.ltb_lt in Hj. rewrite Hj. split; reflexivity.
    + reflexivity.
    + reflexivity.
Defined.

End ClientFacts.

Module DictFacts.
Import PyDict.

Section Dict.
Context {V : Type}.

Lemma has_in (k : string) (d : list (string * V)) : has k d = true <-> In k (map fst d).
Proof.
  unfold has. rewrite existsb_exists. split.
  - intros [kv [Hin Heq]]. apply String.eqb_eq in Heq. subst k. apply in_map. exact Hin.
  - intros Hin. apply in_map_iff in Hin. destruct Hin as [kv [<- Hin]].
    exists kv. split; [exact Hin|apply String.eqb_refl].
Qed.

Lemma get_none (k : string) (d : list (string * V)) : has k d = false -> get k d = None.
Proof.
  induction d as [|[k' v'] r IH]; simpl; [reflexivity|].
  destruct (String.eqb k' k); [discriminate|exact IH].
Qed.

Lemma get_some_has (k : string) (d : list (string * V)) (v : V) :
  get k d = Some v -> has k d = true.
Proof.
  induction d as [|[k' v'] r IH]; simpl; [discriminate|].
  destruct (String.eqb k' k); [reflexivity|]. intros H. rewrite (IH H). apply orb_true_r.
Qed.

Lemma get_app (k : string) (d e : list (string * V)) :
  get k (d ++ e) = match get k d with Some v => Some v | None => get k e end.
Proof.
  induction d as [|[k' v'] r IH]; simpl; [reflexivity|].
  destruct (String.eqb k' k); [reflexivity|exact IH].
Qed.

Lemma get_set_same (k : string) (v : V) (d : list (string * V)) : get k (set k v d) = Some v.
Proof.
  unfold set. destruct (has k d) eqn:H.
  - induction d as [|[k' v'] r IH]; simpl in *; [discriminate|].
    destruct (String.eqb k' k) eqn:E; simpl.
    + rewrite String.eqb_refl. reflexivity.
    + rewrite E. apply IH. exact H.
  - rewrite get_app, (get_none _ _ H). simpl. rewrite String.eqb_refl. reflexivity.
Qed.

Lemma get_set_other (k k' : string) (v : V) (d : list (string * V)) :
  k' <> k -> get k' (set k v d) = get k' d.
Proof.
  intros Hne. unfold set. destruct (has k d).
  - induction d as [|[k0 v0] r IH]; simpl; [reflexivity|].
    destruct (String.eqb k0 k) eqn:E; simpl.
    + apply String.eqb_eq in E. subst k0.
      destruct (String.eqb k k') eqn:E'; [apply String.eqb_eq in E'; congruence|].
      rewrite IH. reflexivity.
    + destruct (String.eqb k0 k'); [reflexivity|exact IH].
  - rewrite get_app. destruct (get k' d); [reflexivity|]. simpl.
    destruct (String.eqb k k') eqn:E'; [apply String.eqb_eq in E'; congruence|reflexivity].
Qed.

Lemma keys_set (k : string) (v : V) (d : list (string * V)) :
  map fst (set k v d) = if has k d then map fst d else map fst d ++ [k].
Proof.
  unfold set. destruct (has k d).
  - rewrite map_map. apply map_ext. intros [k0 v0]. simpl.
    destruct (String.eqb k0 k) eqn:E; [apply String.eqb_eq in E; subst; reflexivity|reflexivity].
  - rewrite List.map_app. reflexivity.
Qed.

Lemma nodup_set (k : string) (v : V) (d : list (string * V)) :
  NoDup (map fst d) -> NoDup (map fst (set k v d)).
Proof.
  intros H. rewrite keys_set. destruct (has k d) eqn:E; [exact H|].
  apply NoDup_app; [exact H|constructor; [intros []|constructor]|].
  intros x Hx Hy. destruct Hy as [<-|[]].
  assert (has k d = true) by (apply has_in; exact Hx). congruence.
Qed.

Lemma get_pop_same (k : string) (d : list (string * V)) : get k (pop k d) = None.
Proof.
  unfold pop. induction d as [|[k0 v0] r IH]; simpl; [reflexivity|].
  destruct (String.eqb k0 k) eqn:E; simpl; [exact IH|]. rewrite E. exact IH.
Qed.

Lemma get_pop_other (k k' : string) (d : list (string * V)) :
  k' <> k -> get k' (pop k d) = get k' d.
Proof.
  intros Hne. unfold pop. induction d as [|[k0 v0] r IH]; simpl; [reflexivity|].
  destruct (String.eqb k0 k) eqn:E; simpl.
  - apply String.eqb_eq in E. subst k0.
    destruct (String.eqb k k') eqn:E'; [apply String.eqb_eq in E'; congruence|exact IH].
  - destruct (String.eqb k0 k'); [reflexivity|exact IH].
Qed.

End Dict.

End DictFacts.

Module ToolTableFacts.
Import Registry ToolTable DictFacts.

Lemma lookup_handlers (name : string) (t : tools) :
  lookup name (handlers t) = option_map handler_of (PyDict.get name t).
Proof.
  induction t as [|[n e] r IH]; simpl; [reflexivity|].
  destruct (String.eqb n name); [reflexivity|exact IH].
Qed.

Lemma register_tool_ok (name : string) (h : handler) (def : dict) (t : tools) :
  has_key "name" def = true -> has_key "input_schema" def = true ->
  Json.get "name" def = Some (JStr name) ->
  register_tool name h def t = inl (PyDict.set name (mkEntry h def) t).
Proof.
  intros H1 H2 H3. unfold register_tool. rewrite H1, H2. simpl. rewrite H3, String.eqb_refl.
  reflexivity.
Qed.

Lemma register_tool_inv (name : string) (h : handler) (def : dict) (t t' : tools) :
  register_tool name h def t = inl t' ->
  has_key "name" def = true /\ has_key "input_schema" def = true
  /\ Json.get "name" def = Some (JStr name) /\ t' = PyDict.set name (mkEntry h def) t.
Proof.
  unfold register_tool.
  destruct (has_key "name" def), (has_key "input_schema" def); simpl; try discriminate.
  destruct (Json.get "name" def) as [[]|]; try discriminate.
  destruct (String.eqb s name) eqn:E; [|discriminate]. apply String.eqb_eq in E. subst s.
  intros H. injection H as <-. repeat split.
Qed.

(** [register_tool] succeeds exactly when the definition has a [name] equal
    to the registry name and an [input_schema]; the tool is then found by
    [get_tool_definition] and [execute_tool] dispatches to its handler,
    while every other name keeps its definition and handler. *)
Theorem register_tool_then_lookup (name : string) (h : handler) (def : dict) (t : tools) :
  ((exists t', register_tool name h def t = inl t') <->
   (has_key "name" def = true /\ has_key "input_schema" def = true
    /\ Json.get "name" def = Some (JStr name)))
  /\ (forall t', register_tool name h def t = inl t' ->
        get_tool_definition name t' = Some def
        /\ lookup name (handlers t') = Some h
        /\ (forall n, n <> name ->
              get_tool_definition n t' = get_tool_definition n t
              /\ lookup n (handlers t') = lookup n (handlers t))).
Proof.
  split.
  - split.
    + intros [t' Ht]. destruct (register_tool_inv _ _ _ _ _ Ht) as [H1 [H2 [H3 _]]]. auto.
    + intros [H1 [H2 H3]]. eexists. apply register_tool_ok; assumption.
  - intros t' Ht. destruct (register_tool_inv _ _ _ _ _ Ht) as [_ [_ [_ ->]]].
    unfold get_tool_definition. rewrite !lookup_handlers, get_set_same.
    split; [reflexivity|]. split; [reflexivity|].
    intros n Hn. rewrite !lookup_handlers, !get_set_other by exact Hn. split; reflexivity.
Qed.

Lemma register_tool_then_lookup_witness :
  let h := fun (_ : dict) (_ : option dict) => Returns [] in
  let d := [("name", JStr "show_artifact"); ("input_schema", JObj [])] in
  exists t', register_tool "show_artifact" h d [] = inl t'
    /\ get_tool_definition "show_artifact" t' = Some d
    /\ lookup "show_artifact" (handlers t') = Some h.
Proof.
  intros h d.
  destruct (register_tool_then_lookup "show_artifact" h d []) as [[_ Hok] Hl].
  destruct (Hok (conj eq_refl (conj eq_refl eq_refl))) as [t' Ht].
  exists t'. split; [exact Ht|]. destruct (Hl t' Ht) as [H1 [H2 _]]. split; assumption.
Defined.

(** Registering an already registered name again overwrites it in place:
    the list of names, their order and the count are unchanged; a new name
    is appended at the end and the count grows by one. *)
Theorem register_tool_names (name : string) (h : handler) (def : dict) (t t' : tools) :
  register_tool name h def t = inl t' ->
  (In name (list_tools t) -> list_tools t' = list_tools t /\ get_tool_count t' = get_tool_count t)
  /\ (~ In name (list_tools t) ->
      list_tools t' = list_tools t ++ [name] /\ get_tool_count t' = S (get_tool_count t)).
Proof.
  intros Ht. destruct (register_tool_inv _ _ _ _ _ Ht) as [_ [_ [_ ->]]].
  unfold list_tools, get_tool_count.
  rewrite <- (length_map fst (PyDict.set name (mkEntry h def) t)), <- (length_map fst t).
  rewrite keys_set.
  split.
  - intros Hin. apply has_in in Hin. rewrite Hin. split; reflexivity.
  - intros Hn. destruct (PyDict.has name t) eqn:E; [apply has_in in E; contradiction|].
    rewrite length_app. simpl. split; [reflexivity|lia].
Qed.

Lemma register_tool_names_witness :
  let h := fun (_ : dict) (_ : option dict) => Returns [] in
  let d := [("name", JStr "query_application"); ("input_schema", JObj [])] in
  (In "query_application" (list_tools []) ->
     list_tools [("query_application", mkEntry h d)] = list_tools []
     /\ get_tool_count [("query_application", mkEntry h d)] = get_tool_count [])
  /\ (~ In "query_application" (list_tools []) ->
      list_tools [("query_application", mkEntry h d)] = list_tools [] ++ ["query_application"]
      /\ get_tool_count [("query_application", mkEntry h d)] = S (get_tool_count [])).
Proof.
  intros h d. apply (register_tool_names "query_application" h d []). reflexivity.
Defined.

Lemma register_all_inv (specs : list (string * handler * dict)) (t t' : tools) :
  register_all specs t = inl t' ->
  (NoDup (list_tools t) -> NoDup (list_tools t'))
  /\ (forall n, In n (list_tools t') <->
        In n (list_tools t) \/ In n (map (fun s => fst (fst s)) specs))
  /\ ((forall n d, get_tool_definition n t = Some d ->
         Json.get "name" d = Some (JStr n) /\ has_key "input_schema" d = true) ->
      (forall n d, get_tool_definition n t' = Some d ->
         Json.get "name" d = Some (JStr n) /\ has_key "input_schema" d = true)).
Proof.
  revert t. induction specs as [|[[n h] d] rest IH]; intros t; simpl.
  - intros H. injection H as <-. split; [auto|]. split; [|auto]. intros n. tauto.
  - destruct (register_tool n h d t) as [t1|e] eqn:Er; [|discriminate].
    intros Hall. destruct (IH t1 Hall) as [Hnd [Hin Hdef]].
    destruct (register_tool_inv _ _ _ _ _ Er) as [_ [Hs [Hnm ->]]].
    split; [|split].
    + intros H. apply Hnd. unfold list_tools. apply nodup_set. exact H.
    + intros n'. rewrite Hin. unfold list_tools. rewrite keys_set.
      destruct (PyDict.has n t) eqn:E.
      * apply has_in in E. split.
        -- intros [H|H]; [left; exact H|right; right; exact H].
        -- intros [H|[<-|H]]; [left; exact H|left; exact E|right; exact H].
      * rewrite in_app_iff. simpl. split.
        -- intros [[H|[<-|[]]]|H]; [left; exact H|right; left; reflexivity|right; right; exact H].
        -- intros [H|[<-|H]]; [left; left; exact H|left; right; left; reflexivity|right; exact H].
    + intros Ht. apply Hdef. intros n' d' Hd'. unfold get_tool_definition in Hd'.
      destruct (String.eqb n' n) eqn:E.
      * apply String.eqb_eq in E. subst n'. rewrite get_set_same in Hd'.
        injection Hd' as <-. split; assumption.
      * apply Ht. unfold get_tool_definition. rewrite get_set_other in Hd';
          [exact Hd'|intros ->; rewrite String.eqb_refl in E; discriminate].
Qed.

(** A registry built by [_register_all_tools] from the empty table, when
    no [ValueError] is raised, lists each registered name once, lists
    exactly the names it was given, and every stored definition has a
    [name] equal to its key and an [input_schema]. *)
Theorem register_all_invariant (specs : list (string * handler * dict)) (t : tools) :
  register_all specs [] = inl t ->
  NoDup (list_tools t)
  /\ (forall n, In n (list_tools t) <-> In n (map (fun s => fst (fst s)) specs))
  /\ (forall n d, get_tool_definition n t = Some d ->
        Json.get "name" d = Some (JStr n) /\ has_key "input_schema" d = true).
Proof.
  intros H. destruct (register_all_inv specs [] t H) as [H1 [H2 H3]].
  split; [apply H1; constructor|]. split.
  - intros n. rewrite H2. simpl. tauto.
  - apply H3. intros n d Hd. discriminate.
Qed.

Definition two_specs : list (string * handler * dict) :=
  [("query_application", (fun _ _ => Returns []),
      [("name", JStr "query_application"); ("input_schema", JObj [])]);
   ("query_application", (fun _ _ => Returns [("error", JStr "x")]),
      [("name", JStr "query_application"); ("input_schema", JObj [])])].

Lemma register_all_invariant_witness :
  exists t, register_all two_specs [] = inl t
  /\ NoDup (list_tools t)
  /\ (forall n, In n (list_tools t) <-> In n (map (fun s => fst (fst s)) two_specs))
  /\ (forall n d, get_tool_definition n t = Some d ->
        Json.get "name" d = Some (JStr n) /\ has_key "input_schema" d = true).
Proof.
  eexists. split; [reflexivity|]. apply register_all_invariant. reflexivity.
Defined.


End ToolTableFacts.

Module HistoryMoreFacts.
Import History HistoryCache DictFacts Fixtures.

(** [cache_history] then [get_cached_history] returns the cached messages
    for that session and leaves every other session's entry as it was. *)
Theorem cache_round_trip (sid : string) (ms : list message) (c : cache) :
  get_cached_history sid (cache_history sid ms c) = Some ms
  /\ (forall sid', sid' <> sid ->
        get_cached_history sid' (cache_history sid ms c) = get_cached_history sid' c).
Proof.
  unfold get_cached_history, cache_history. split.
  - apply get_set_same.
  - intros sid' Hne. apply get_set_other. exact Hne.
Qed.

Lemma cache_round_trip_witness :
  get_cached_history "s1" (cache_history "s1" [] [("s2", [])]) = Some []
  /\ (forall sid', sid' <> "s1" ->
        get_cached_history sid' (cache_history "s1" [] [("s2", [])])
        = get_cached_history sid' [("s2", [])]).
Proof. apply cache_round_trip. Defined.

(** [clear_cache] with a non-empty session id drops only that session;
    with no id, and also with the empty string (which is falsy), it
    clears the cache of every session. *)
Theorem clear_cache_scope (c : cache) :
  (forall sid, sid <> EmptyString ->
     get_cached_history sid (clear_cache (Some sid) c) = None
     /\ (forall sid', sid' <> sid ->
           get_cached_history sid' (clear_cache (Some sid) c) = get_cached_history sid' c))
  /\ clear_cache None c = [] /\ clear_cache (Some EmptyString) c = [].
Proof.
  split; [|split; reflexivity].
  intros sid Hne. unfold clear_cache.
  assert (Ht : Py.truthy (Some sid) = true).
  { unfold Py.truthy. destruct (String.eqb sid EmptyString) eqn:E; [|reflexivity].
    apply String.eqb_eq in E. contradiction. }
  rewrite Ht. unfold get_cached_history. split.
  - apply get_pop_same.
  - intros sid' H'. apply get_pop_other. exact H'.
Qed.

Lemma clear_cache_scope_witness :
  let c := [("s1", []); ("s2", [mkMsg (Some "user") "hi"])] in
  (forall sid, sid <> EmptyString ->
     get_cached_history sid (clear_cache (Some sid) c) = None
     /\ (forall sid', sid' <> sid ->
           get_cached_history sid' (clear_cache (Some sid) c) = get_cached_history sid' c))
  /\ clear_cache None c = [] /\ clear_cache (Some EmptyString) c = [].
Proof. apply clear_cache_scope. Defined.

(** [summarize_old_messages] returns no summary and the list itself up to
    the threshold; above it, the summarised old part and the returned
    recent part split the list, the recent part holding the last
    [summary_threshold] messages.  With a threshold of [0] the slices
    [messages[:-0]] and [messages[-0:]] make the old part empty: the whole
    list is returned as recent, beside a summary of zero messages. *)
Theorem summarize_split (ms : list message) (thr : nat) :
  (length ms <= thr -> summarize_old_messages ms thr = (None, ms))
  /\ (thr < length ms ->
      summarize_old_messages ms thr = (Some (summary_text (py_init thr ms)), py_tail thr ms)
      /\ py_init thr ms ++ py_tail thr ms = ms
      /\ (thr = 0 -> py_init thr ms = [] /\ py_tail thr ms = ms)
      /\ (0 < thr -> length (py_tail thr ms) = thr)).
Proof.
  unfold summarize_old_messages. split.
  - intros H. apply Nat.leb_le in H. rewrite H. reflexivity.
  - intros H. assert (H' : Nat.leb (length ms) thr = false) by (apply Nat.leb_gt; exact H).
    rewrite H'. split; [reflexivity|]. unfold py_init, py_tail.
    destruct (Nat.eqb thr 0) eqn:E0.
    + apply Nat.eqb_eq in E0. split; [reflexivity|]. split; [auto|]. lia.
    + apply Nat.eqb_neq in E0. split; [apply firstn_skipn|]. split; [lia|].
      intros _. rewrite length_skipn. lia.
Qed.

Definition three : list message :=
  [mkMsg (Some "user") "q"; mkMsg (Some "assistant") "a"; mkMsg (Some "user") "q2"].

Lemma summarize_split_witness :
  (length three <= 0 -> summarize_old_messages three 0 = (None, three))
  /\ (0 < length three ->
      summarize_old_messages three 0 = (Some (summary_text (py_init 0 three)), py_tail 0 three)
      /\ py_init 0 three ++ py_tail 0 three = three
      /\ (0 = 0 -> py_init 0 three = [] /\ py_tail 0 three = three)
      /\ (0 < 0 -> length (py_tail 0 three) = 0)).
Proof. apply summarize_split. Defined.

Lemma truncate_within (max keep : nat) (ms : list message) :
  estimate_tokens ms <= max -> truncate_to_fit max ms keep = ms.
Proof.
  intros H. unfold truncate_to_fit. destruct ms as [|m r]; [reflexivity|].
  apply Nat.leb_le in H. rewrite H. reflexivity.
Qed.

Lemma truncate_short (max keep : nat) (ms : list message) :
  keep = 0 \/ length ms <= keep -> truncate_to_fit max ms keep = ms.
Proof.
  intros Hk. unfold truncate_to_fit. destruct ms as [|m r] eqn:Ems; [reflexivity|].
  rewrite <- Ems in Hk |- *.
  destruct (Nat.leb (estimate_tokens ms) max); [reflexivity|].
  assert (Ho : older_part keep ms = []).
  { unfold older_part, py_init. destruct (Nat.ltb keep (length ms)) eqn:E; [|reflexivity].
    destruct Hk as [->|Hk]; [reflexivity|]. apply Nat.ltb_lt in E. lia. }
  assert (Hw : kept_window keep ms = ms).
  { unfold kept_window, py_tail. destruct (Nat.ltb keep (length ms)) eqn:E; [|reflexivity].
    destruct Hk as [->|Hk]; [reflexivity|]. apply Nat.ltb_lt in E. lia. }
  rewrite Ho, Hw. reflexivity.
Qed.

(** [truncate_to_fit] never drops a message when [keep_most_recent] is [0]
    ([messages[-0:]] is the whole list and [messages[:-0]] is empty) or
    when the history has at most [keep_most_recent] messages, whatever the
    budget. *)
Theorem truncate_to_fit_keeps_short (max keep : nat) (ms : list message) :
  keep = 0 \/ length ms <= keep -> truncate_to_fit max ms keep = ms.
Proof. apply truncate_short. Qed.

Lemma truncate_to_fit_keeps_short_witness :
  truncate_to_fit 10 long_history 0 = long_history.
Proof. apply truncate_to_fit_keeps_short. left. reflexivity. Defined.

(** [truncate_to_fit] is idempotent: truncating its result again, with the
    same budget and window, returns it unchanged. *)
Theorem truncate_to_fit_idempotent (max keep : nat) (ms : list message) :
  truncate_to_fit max (truncate_to_fit max ms keep) keep = truncate_to_fit max ms keep.
Proof.
  destruct (Nat.leb (estimate_tokens ms) max) eqn:E.
  - apply Nat.leb_le in E. rewrite (truncate_within max keep ms E).
    apply truncate_within. exact E.
  - apply Nat.leb_gt in E.
    assert (Hr : truncate_to_fit max ms keep
                 = prepend_older max (rev (older_part keep ms)) (kept_window keep ms)).
    { unfold truncate_to_fit. destruct ms as [|m0 rest]; [simpl in E; unfold estimate_tokens in E; simpl in E; lia|].
      apply Nat.leb_gt in E. rewrite E. reflexivity. }
    destruct (HistoryFacts.prepend_older_shape max (rev (older_part keep ms)) (kept_window keep ms))
      as [P [Q [H1 [_ [H3 [H4 _]]]]]].
    rewrite Hr, H1.
    destruct (Nat.leb (estimate_tokens (P ++ kept_window keep ms)) max) eqn:F.
    + apply Nat.leb_le in F. apply truncate_within. exact F.
    + apply Nat.leb_gt in F.
      assert (Hw : max < estimate_tokens (kept_window keep ms)).
      { destruct (Nat.le_gt_cases (estimate_tokens (kept_window keep ms)) max) as [G|G];
          [specialize (H3 G); lia|exact G]. }
      rewrite (H4 Hw). simpl. apply truncate_short.
      unfold kept_window, py_tail. destruct (Nat.ltb keep (length ms)) eqn:G.
      * destruct (Nat.eqb keep 0) eqn:G0; [left; apply Nat.eqb_eq; exact G0|].
        right. rewrite length_skipn. apply Nat.ltb_lt in G. lia.
      * right. apply Nat.ltb_ge. exact G.
Qed.

Lemma alternating_tail (m : message) (l : list message) :
  alternating (m :: l) -> alternating l.
Proof. intros H. inversion H; subst; [constructor|assumption]. Qed.

Lemma alternating_valid (l : list message) :
  alternating l -> forall m, In m l -> valid_role (role m) = true.
Proof.
  induction 1 as [|m Hv|m1 m2 rest Hv _ Ha IH]; intros m' Hin.
  - contradiction.
  - destruct Hin as [<-|[]]. exact Hv.
  - destruct Hin as [<-|Hin]; [exact Hv|]. apply IH. exact Hin.
Qed.

Lemma alternating_snoc_distinct (l : list message) (a b : message) :
  alternating (l ++ [a; b]) -> role a <> role b.
Proof.
  induction l as [|x r IH]; simpl; intros H.
  - inversion H; subst. assumption.
  - apply IH. apply (alternating_tail x). exact H.
Qed.

Lemma alternating_snoc (u : message) :
  valid_role (role u) = true ->
  forall l, alternating l -> (l = [] \/ role (last l u) <> role u) ->
  alternating (l ++ [u]).
Proof.
  intros Hu l Ha. induction Ha as [|m Hv|m1 m2 rest Hv Hne Ha IH]; intros Hl.
  - constructor. exact Hu.
  - simpl. constructor; [exact Hv| |constructor; exact Hu].
    destruct Hl as [Hl|Hl]; [discriminate|exact Hl].
  - simpl. constructor; [exact Hv|exact Hne|].
    apply IH. right. destruct Hl as [Hl|Hl]; [discriminate|exact Hl].
Qed.

Lemma format_alternating (ms : list message) :
  alternating ms -> format_for_claude ms = ms.
Proof.
  intros Ha. pose proof (alternating_valid ms Ha) as Hv. clear Ha.
  unfold format_for_claude. induction ms as [|m r IH]; [reflexivity|].
  simpl. rewrite (Hv m (or_introl eq_refl)). simpl. destruct m as [ro co]. simpl.
  f_equal. apply IH. intros m' Hm'. apply Hv. right. exact Hm'.
Qed.

Lemma truthy_nonempty (t : string) : t <> EmptyString -> Py.truthy (Some t) = true.
Proof.
  intros H. unfold Py.truthy. destruct (String.eqb t EmptyString) eqn:E; [|reflexivity].
  apply String.eqb_eq in E. contradiction.
Qed.

(** [prepare_for_api] accepts an alternating history that starts with
    [user] and is empty or ends with [assistant], kept as is when it fits
    the budget (or truncation is off): the result is the history followed
    by the new user message. *)
Theorem prepare_for_api_appends (max : nat) (ms : list message) (t : string) (auto : bool) :
  strictly_alternates_from_user ms ->
  (ms = [] \/ exists l m, ms = l ++ [m] /\ role m = Some "assistant") ->
  (auto = false \/ estimate_tokens ms <= max) ->
  t <> EmptyString ->
  prepare_for_api max ms (Some t) auto = inl (ms ++ [mkMsg (Some "user") t]).
Proof.
  intros [Ha Hh] Hend Hfit Ht.
  set (u := mkMsg (Some "user") t).
  assert (Hp : prepared max ms (Some t) auto = ms ++ [u]).
  { unfold prepared.
    assert (E : (if auto then truncate_to_fit max ms 10 else ms) = ms).
    { destruct auto; [|reflexivity]. destruct Hfit as [Hf|Hf]; [discriminate|].
      apply truncate_within. exact Hf. }
    rewrite E, (format_alternating ms Ha), (truthy_nonempty t Ht). reflexivity. }
  assert (Hs : strictly_alternates_from_user (ms ++ [u])).
  { split.
    - apply alternating_snoc; [reflexivity|exact Ha|].
      destruct Hend as [->|[l [m [-> Hm]]]]; [left; reflexivity|].
      right. rewrite last_last, Hm. simpl. discriminate.
    - intros m Hm. destruct ms as [|m0 r]; simpl in Hm.
      + injection Hm as <-. reflexivity.
      + apply Hh. exact Hm. }
  unfold prepare_for_api. rewrite Hp.
  pose proof (HistoryFacts.validate_alternation_spec (ms ++ [u])) as Hv.
  destruct (validate_alternation (ms ++ [u])) as [[|] e]; [reflexivity|].
  simpl in Hv. apply Hv in Hs. discriminate.
Qed.

Lemma prepare_for_api_appends_witness :
  prepare_for_api 100 [mkMsg (Some "user") "hi"; mkMsg (Some "assistant") "hello"]
    (Some "next") true
  = inl ([mkMsg (Some "user") "hi"; mkMsg (Some "assistant") "hello"]
         ++ [mkMsg (Some "user") "next"]).
Proof.
  apply prepare_for_api_appends.
  - split.
    + constructor; [reflexivity|discriminate|constructor; reflexivity].
    + intros m Hm. injection Hm as <-. reflexivity.
  - right. exists [mkMsg (Some "user") "hi"], (mkMsg (Some "assistant") "hello").
    split; reflexivity.
  - right. vm_compute. lia.
  - discriminate.
Defined.

(** When the formatted (and possibly truncated) history ends with a [user]
    message, for instance after a turn whose assistant reply was never
    stored, [prepare_for_api] with a new user message always raises the
    [ValueError]. *)
Theorem prepare_for_api_rejects_double_user (max : nat) (ms : list message) (t : string)
    (auto : bool) (l : list message) (m : message) :
  format_for_claude (if auto then truncate_to_fit max ms 10 else ms) = l ++ [m] ->
  role m = Some "user" ->
  t <> EmptyString ->
  exists e, prepare_for_api max ms (Some t) auto = inr e.
Proof.
  intros Hf Hm Ht.
  assert (Hp : prepared max ms (Some t) auto = l ++ [m; mkMsg (Some "user") t]).
  { unfold prepared. rewrite Hf, (truthy_nonempty t Ht), <- app_assoc. reflexivity. }
  unfold prepare_for_api. rewrite Hp.
  pose proof (HistoryFacts.validate_alternation_spec (l ++ [m; mkMsg (Some "user") t])) as Hv.
  destruct (validate_alternation (l ++ [m; mkMsg (Some "user") t])) as [[|] e].
  - exfalso. simpl in Hv. destruct (proj1 Hv eq_refl) as [Ha _].
    apply (alternating_snoc_distinct l m _ Ha). rewrite Hm. reflexivity.
  - eexists. reflexivity.
Qed.

Lemma prepare_for_api_rejects_double_user_witness :
  exists e, prepare_for_api 100 [mkMsg (Some "user") "hi"] (Some "again") true = inr e.
Proof.
  apply (prepare_for_api_rejects_double_user 100 [mkMsg (Some "user") "hi"] "again" true []
           (mkMsg (Some "user") "hi")); [vm_compute; reflexivity|reflexivity|discriminate].
Defined.

End HistoryMoreFacts.

Module ClientWireFacts.
Import Client ClientWire DictFacts.

Lemma has_set (k k' : string) (v : json) (d : list (string * json)) :
  PyDict.has k (PyDict.set k' v d) = String.eqb k' k || PyDict.has k d.
Proof.
  destruct (PyDict.has k (PyDict.set k' v d)) eqn:E; symmetry.
  - apply has_in in E. rewrite keys_set in E.
    destruct (PyDict.has k' d) eqn:E'.
    + apply has_in in E. rewrite E. apply orb_true_r.
    + apply in_app_iff in E. destruct E as [E|[E|[]]].
      * apply has_in in E. rewrite E. apply orb_true_r.
      * subst k'. rewrite String.eqb_refl. reflexivity.
  - apply orb_false_intro.
    + destruct (String.eqb k' k) eqn:Eq; [|reflexivity].
      apply String.eqb_eq in Eq. subst k'.
      assert (H : PyDict.get k (PyDict.set k v d) = Some v) by apply get_set_same.
      apply get_some_has in H. congruence.
    + destruct (PyDict.has k d) eqn:Ed; [|reflexivity].
      apply has_in in Ed. assert (Hin : In k (map fst (PyDict.set k' v d))).
      { rewrite keys_set. destruct (PyDict.has k' d); [exact Ed|apply in_app_iff; left; exact Ed]. }
      apply has_in in Hin. congruence.
Qed.

Lemma fold_set_has (k : string) (kw d : list (string * json)) :
  PyDict.has k (fold_left (fun d kv => PyDict.set (fst kv) (snd kv) d) kw d)
  = PyDict.has k kw || PyDict.has k d.
Proof.
  revert d. induction kw as [|[k1 v1] r IH]; intros d; simpl; [reflexivity|].
  rewrite IH, has_set. destruct (String.eqb k1 k), (PyDict.has k r); reflexivity.
Qed.

Lemma fold_set_get (k : string) (kw d : list (string * json)) :
  NoDup (map fst kw) ->
  PyDict.get k (fold_left (fun d kv => PyDict.set (fst kv) (snd kv) d) kw d)
  = match PyDict.get k kw with Some v => Some v | None => PyDict.get k d end.
Proof.
  revert d. induction kw as [|[k1 v1] r IH]; intros d Hnd; simpl; [reflexivity|].
  inversion Hnd as [|x y Hnin Hnd']; subst. rewrite (IH _ Hnd').
  destruct (String.eqb k1 k) eqn:E.
  - apply String.eqb_eq in E. subst k1.
    assert (Hr : PyDict.get k r = None).
    { apply get_none. destruct (PyDict.has k r) eqn:Eh; [|reflexivity].
      apply has_in in Eh. contradiction. }
    rewrite Hr. apply get_set_same.
  - destruct (PyDict.get k r); [reflexivity|]. apply get_set_other.
    intros ->. rewrite String.eqb_refl in E. discriminate.
Qed.

(** [kwargs.get(k, default)] *)
Definition kw (kwargs : list (string * json)) (k : string) (default : json) : json :=
  match PyDict.get k kwargs with Some v => v | None => default end.

(** The body [send_message] posts: [model] and [max_tokens] (either
    overridden by a keyword argument), the single user message, then
    [system] only for a non-empty system prompt, [tools] only for a
    non-empty tool list, and always [temperature]; no other keyword
    argument reaches the request.  ([kwargs] never holds [system] or
    [tools], which are named parameters.) *)
Theorem send_message_body_shape (model max_tokens temperature : json) (message : string)
    (system : option string) (tools : option (list json)) (kwargs : list (string * json)) :
  NoDup (map fst kwargs) ->
  PyDict.has "system" kwargs = false -> PyDict.has "tools" kwargs = false ->
  send_message_body model max_tokens temperature message system tools kwargs
  = [("model", kw kwargs "model" model); ("max_tokens", kw kwargs "max_tokens" max_tokens);
     ("messages", JArr [JObj [("role", JStr "user"); ("content", JStr message)]])]
    ++ (match system with
        | Some sy => if Py.truthy system then [("system", JStr sy)] else []
        | None => [] end)
    ++ (match tools with
        | Some tl => if tools_truthy tools then [("tools", JArr tl)] else []
        | None => [] end)
    ++ [("temperature", kw kwargs "temperature" temperature)].
Proof.
  intros Hnd Hs Ht. unfold send_message_body. cbv zeta.
  set (P1 := fold_left (fun d kv => PyDict.set (fst kv) (snd kv) d) kwargs
               [("model", model); ("max_tokens", max_tokens); ("temperature", temperature)]).
  assert (Hm : forall k d, k <> "system" -> k <> "tools" ->
             PyDict.get k [("model", model); ("max_tokens", max_tokens);
                           ("temperature", temperature)] = Some d ->
             param k P1 = kw kwargs k d).
  { intros k d _ _ Hd. unfold param, kw, P1. rewrite fold_set_get by exact Hnd.
    destruct (PyDict.get k kwargs); [reflexivity|]. rewrite Hd. reflexivity. }
  assert (HsP : PyDict.has "system" P1 = false) by (unfold P1; rewrite fold_set_has, Hs; reflexivity).
  assert (HtP : PyDict.has "tools" P1 = false) by (unfold P1; rewrite fold_set_has, Ht; reflexivity).
  assert (HeP : PyDict.has "temperature" P1 = true)
    by (unfold P1; rewrite fold_set_has; apply orb_true_r).
  assert (Hmo := Hm "model" model ltac:(discriminate) ltac:(discriminate) eq_refl).
  assert (Hmx := Hm "max_tokens" max_tokens ltac:(discriminate) ltac:(discriminate) eq_refl).
  assert (Hte := Hm "temperature" temperature ltac:(discriminate) ltac:(discriminate) eq_refl).
  clearbody P1. clear Hm.
  (* the system prompt *)
  set (P2 := match system with
             | Some sy => if Py.truthy system then PyDict.set "system" (JStr sy) P1 else P1
             | None => P1 end).
  assert (H2 : (forall k, k <> "system" -> param k P2 = param k P1 /\ PyDict.has k P2 = PyDict.has k P1)
               /\ PyDict.has "system" P2 = (match system with Some _ => Py.truthy system | None => false end)
               /\ (forall sy, system = Some sy -> Py.truthy system = true -> param "system" P2 = JStr sy)).
  { unfold P2. destruct system as [sy|]; [destruct (Py.truthy (Some sy)) eqn:Etr|].
    - split; [|split].
      + intros k Hk. unfold param. rewrite get_set_other by exact Hk. rewrite has_set.
        destruct (String.eqb "system" k) eqn:E; [apply String.eqb_eq in E; congruence|]. auto.
      + rewrite has_set. reflexivity.
      + intros sy' Hsy _. injection Hsy as Hsy. rewrite <- Hsy. unfold param. rewrite get_set_same. reflexivity.
    - split; [auto|]. split; [exact HsP|]. intros ? ? H. discriminate.
    - split; [auto|]. split; [exact HsP|]. intros ? H. discriminate. }
  clearbody P2. destruct H2 as [H2o [H2s H2v]].
  set (P3 := match tools with
             | Some tl => if tools_truthy tools then PyDict.set "tools" (JArr tl) P2 else P2
             | None => P2 end).
  assert (H3 : (forall k, k <> "tools" -> param k P3 = param k P2 /\ PyDict.has k P3 = PyDict.has k P2)
               /\ PyDict.has "tools" P3 = tools_truthy tools
               /\ (forall tl, tools = Some tl -> tools_truthy tools = true -> param "tools" P3 = JArr tl)).
  { unfold P3. destruct tools as [tl|]; [destruct (tools_truthy (Some tl)) eqn:Etr|].
    - split; [|split].
      + intros k Hk. unfold param. rewrite get_set_other by exact Hk. rewrite has_set.
        destruct (String.eqb "tools" k) eqn:E; [apply String.eqb_eq in E; congruence|]. auto.
      + rewrite has_set. reflexivity.
      + intros tl' Htl _. injection Htl as Htl. rewrite <- Htl. unfold param. rewrite get_set_same. reflexivity.
    - split; [auto|]. split; [|intros ? ? H; discriminate].
      rewrite (proj2 (H2o "tools" ltac:(discriminate))). exact HtP.
    - split; [auto|]. split; [|intros ? H; discriminate].
      rewrite (proj2 (H2o "tools" ltac:(discriminate))). exact HtP. }
  clearbody P3. destruct H3 as [H3o [H3t H3v]].
  assert (Eo : forall k, k <> "system" -> k <> "tools" -> param k P3 = param k P1
                 /\ PyDict.has k P3 = PyDict.has k P1).
  { intros k H1 H2'. destruct (H3o k H2') as [A B]. destruct (H2o k H1) as [C D].
    split; congruence. }
  destruct (Eo "model" ltac:(discriminate) ltac:(discriminate)) as [Emo _].
  destruct (Eo "max_tokens" ltac:(discriminate) ltac:(discriminate)) as [Emx _].
  destruct (Eo "temperature" ltac:(discriminate) ltac:(discriminate)) as [Ete Ehe].
  assert (Hsys : forall sy, system = Some sy -> Py.truthy system = true ->
                  param "system" P3 = JStr sy).
  { intros sy Hsy Hst. rewrite (proj1 (H3o "system" ltac:(discriminate))). exact (H2v sy Hsy Hst). }
  rewrite Emo, Emx, Hmo, Hmx, Ete, Hte, Ehe, HeP.
  rewrite (proj2 (H3o "system" ltac:(discriminate))), H2s, H3t.
  destruct system as [sy|]; [destruct (Py.truthy (Some sy)) eqn:Es|];
  destruct tools as [tl|]; try (destruct (tools_truthy (Some tl)) eqn:Et);
  simpl tools_truthy; cbn [PyDict.set PyDict.has existsb fst String.eqb Ascii.eqb Bool.eqb
                            app map andb orb];
  try rewrite (Hsys _ eq_refl eq_refl); try rewrite (H3v _ eq_refl eq_refl); reflexivity.
Qed.

Lemma send_message_body_shape_witness :
  send_message_body (JStr "claude-sonnet-4-5") (JNum 4096) (JNum 1) "prompt"
    (Some "You are a title generator.") None [("max_tokens", JNum 50)]
  = [("model", kw [("max_tokens", JNum 50)] "model" (JStr "claude-sonnet-4-5"));
     ("max_tokens", kw [("max_tokens", JNum 50)] "max_tokens" (JNum 4096));
     ("messages", JArr [JObj [("role", JStr "user"); ("content", JStr "prompt")]])]
    ++ (match Some "You are a title generator." with
        | Some sy => if Py.truthy (Some "You are a title generator.") then [("system", JStr sy)] else []
        | None => [] end)
    ++ (match (None : option (list json)) with
        | Some tl => if tools_truthy (Some tl) then [("tools", JArr tl)] else []
        | None => [] end)
    ++ [("temperature", kw [("max_tokens", JNum 50)] "temperature" (JNum 1))].
Proof.
  apply send_message_body_shape; [repeat constructor; intros []|reflexivity|reflexivity].
Defined.

(** A [data: ] line of the event stream. *)
Definition data_line (x : string) : string := ("data: " ++ x)%string.

Lemma substring_full (s : string) : substring 0 (String.length s) s = s.
Proof. induction s as [|c s IH]; simpl; [reflexivity|]. rewrite IH. reflexivity. Qed.

Lemma prefix_empty (s : string) : String.prefix EmptyString s = true.
Proof. destruct s; reflexivity. Qed.

Lemma sse_data_line (x : string) (rest : list string) :
  sse_data (data_line x :: rest)
  = if String.eqb x "[DONE]" then [] else x :: sse_data rest.
Proof.
  unfold data_line. simpl. rewrite prefix_empty, Nat.sub_0_r, substring_full. reflexivity.
Qed.

(** [stream_message] yields nothing for a line that does not start with
    [data: ] (blank lines, [:] comments, other fields, a [data:] without
    the space, an indented [data: ]): removing such a line anywhere from
    the stream leaves the yielded chunks unchanged. *)
Theorem sse_ignores_other_lines (l1 l2 : list string) (c : string) :
  String.prefix "data: " c = false ->
  sse_data (l1 ++ c :: l2) = sse_data (l1 ++ l2).
Proof.
  intros Hc. induction l1 as [|x r IH]; simpl.
  - destruct (negb (all_space c)); [|reflexivity].
    destruct (String.prefix ":" c); [reflexivity|]. rewrite Hc. reflexivity.
  - destruct (negb (all_space x)); [|exact IH].
    destruct (String.prefix ":" x); [exact IH|].
    destruct (String.prefix "data: " x); [|exact IH].
    destruct (String.eqb _ "[DONE]"); [reflexivity|]. rewrite IH. reflexivity.
Qed.

Lemma sse_ignores_other_lines_witness :
  sse_data (["data: a"] ++ ": keep-alive" :: ["data: b"]) = sse_data (["data: a"] ++ ["data: b"]).
Proof. apply sse_ignores_other_lines. reflexivity. Defined.

(** The payloads of [data: ] lines are yielded in order up to the
    [data: [DONE]] line, which ends the stream: nothing after it is
    yielded and [[DONE]] itself never is. *)
Theorem sse_round_trip (xs rest : list string) :
  ~ In "[DONE]" xs ->
  sse_data (map data_line xs ++ data_line "[DONE]" :: rest) = xs
  /\ (forall lines x, In x (sse_data lines) -> x <> "[DONE]").
Proof.
  intros Hx. split.
  - induction xs as [|x r IH]; cbn [map app].
    + rewrite sse_data_line. reflexivity.
    + rewrite sse_data_line. destruct (String.eqb x "[DONE]") eqn:E.
      * apply String.eqb_eq in E. subst x. exfalso. apply Hx. left. reflexivity.
      * f_equal. apply IH. intros H. apply Hx. right. exact H.
  - intros lines. induction lines as [|line r IH]; simpl; [intros x []|].
    destruct (negb (all_space line)); [|exact IH].
    destruct (String.prefix ":" line); [exact IH|].
    destruct (String.prefix "data: " line); [|exact IH].
    destruct (String.eqb _ "[DONE]") eqn:E; [intros x []|].
    intros x [<-|Hin]; [|apply IH; exact Hin].
    intros Hd. rewrite Hd in E. discriminate.
Qed.

Lemma sse_round_trip_witness :
  sse_data (map data_line ["a"; "b"] ++ data_line "[DONE]" :: ["data: c"]) = ["a"; "b"]
  /\ (forall lines x, In x (sse_data lines) -> x <> "[DONE]").
Proof.
  apply sse_round_trip. intros [H|[H|[]]]; discriminate.
Defined.

Lemma last_content_snoc (msgs : list (string * turn_content)) (a b : string * turn_content) :
  last_content (msgs ++ [a; b]) = snd b.
Proof.
  unfold last_content. replace (msgs ++ [a; b]) with ((msgs ++ [a]) ++ [b])
    by (rewrite <- app_assoc; reflexivity).
  rewrite last_last. reflexivity.
Qed.

Lemma sent_head (llm : nat -> option reply) (n i : nat) (msgs : list (string * turn_content))
    (c : turn_content) :
  nth_error (tool_loop_sent llm n i msgs) 0 = Some c -> c = last_content msgs.
Proof.
  destruct n as [|n]; simpl; [discriminate|].
  destruct (llm i) as [r|]; [destruct (is_tool_use r)|]; simpl; intros H; injection H; auto.
Qed.

Lemma sent_later (llm : nat -> option reply) :
  forall n i msgs j c,
    nth_error (tool_loop_sent llm n i msgs) (S j) = Some c ->
    exists r, llm (i + j) = Some r /\ is_tool_use r = true
              /\ c = ToolResults (tool_results (blocks r)).
Proof.
  induction n as [|n IH]; intros i msgs j c; simpl; [discriminate|].
  destruct (llm i) as [r|] eqn:Er; [|destruct j; discriminate].
  destruct (is_tool_use r) eqn:Et; [|destruct j; discriminate].
  simpl. destruct j as [|j].
  - intros H. apply sent_head in H. rewrite last_content_snoc in H. simpl in H.
    exists r. rewrite Nat.add_0_r. auto.
  - intros H. destruct (IH _ _ _ _ H) as [r' [H1 [H2 H3]]].
    exists r'. replace (i + S j) with (S i + j) by lia. auto.
Qed.

Lemma sent_length (llm : nat -> option reply) :
  forall n i msgs, length (tool_loop_sent llm n i msgs) <= n.
Proof.
  induction n as [|n IH]; intros i msgs; simpl; [lia|].
  destruct (llm i) as [r|]; [destruct (is_tool_use r)|]; simpl; [specialize (IH (S i) (msgs ++ [("assistant", Blocks (blocks r)); ("user", ToolResults (tool_results (blocks r)))])); lia|lia|lia].
Qed.

(** The loop of [execute_with_tools] makes at most [max_iterations] calls;
    the first sends the caller's message, and every later call sends only
    the tool results of the previous reply ([messages[-1]["content"]]):
    neither the original message nor the assistant's tool-use blocks are
    sent again. *)
Theorem execute_with_tools_sends_last_turn (llm : nat -> option reply) (message : string)
    (n : nat) :
  let sent := execute_with_tools_sent llm message n in
  length sent <= n
  /\ (0 < n -> nth_error sent 0 = Some (Text message))
  /\ (forall j c, nth_error sent (S j) = Some c ->
        exists r, llm j = Some r /\ is_tool_use r = true
                  /\ c = ToolResults (tool_results (blocks r))).
Proof.
  cbv zeta. unfold execute_with_tools_sent. split; [apply sent_length|]. split.
  - intros Hn. destruct n as [|n]; [lia|]. simpl.
    destruct (llm 0) as [r|]; [destruct (is_tool_use r)|]; reflexivity.
  - intros j c H. apply (sent_later llm n 0 _ j c H).
Qed.

Lemma execute_with_tools_sends_last_turn_witness :
  let sent := execute_with_tools_sent ClientFacts.text_at_2 "hi" 5 in
  length sent <= 5
  /\ (0 < 5 -> nth_error sent 0 = Some (Text "hi"))
  /\ (forall j c, nth_error sent (S j) = Some c ->
        exists r, ClientFacts.text_at_2 j = Some r /\ is_tool_use r = true
                  /\ c = ToolResults (tool_results (blocks r))).
Proof. apply execute_with_tools_sends_last_turn. Defined.

End ClientWireFacts.

Module TitleFacts.
Import Client Titles.

Lemma length_append (a b : string) : String.length (a ++ b) = String.length a + String.length b.
Proof. induction a as [|c a IH]; simpl; [reflexivity|]. rewrite IH. reflexivity. Qed.

Lemma substring_prefix_length (n : nat) (s : string) :
  String.length (substring 0 n s) = Nat.min n (String.length s).
Proof.
  revert n. induction s as [|c s IH]; intros n; destruct n as [|n]; simpl; try reflexivity.
  rewrite IH. reflexivity.
Qed.

(** [generate_session_title] always returns a non-empty title, and
    re-raises when the [send_message] call fails.  A non-empty cleaned
    reply longer than [max_length] is cut to exactly [max_length]
    characters when [max_length >= 3]; below 3 the negative slice index
    [max_length-3] makes the title longer than [max_length].  An empty
    reply gives [New Conversation], whatever [max_length]. *)
Theorem generate_session_title_length (bs : list block) (max_length : nat) :
  generate_session_title None max_length = None
  /\ exists title, generate_session_title (Some bs) max_length = Some title
     /\ title <> EmptyString
     /\ (clean_title bs = EmptyString -> title = "New Conversation")
     /\ (3 <= max_length -> String.length title <= max_length
                            \/ clean_title bs = EmptyString)
     /\ (max_length < 3 -> max_length < String.length (clean_title bs) ->
           max_length < String.length title).
Proof.
  split; [reflexivity|]. unfold generate_session_title. cbv zeta.
  set (c := clean_title bs).
  destruct (Nat.ltb max_length (String.length c)) eqn:E.
  - apply Nat.ltb_lt in E.
    assert (Hl : String.length (cut max_length c ++ "...") =
                 if Nat.leb 3 max_length then max_length
                 else String.length c - (3 - max_length) + 3).
    { rewrite length_append. unfold cut. change (String.length "...") with 3.
      destruct (Nat.leb 3 max_length) eqn:F.
      - apply Nat.leb_le in F. rewrite substring_prefix_length. lia.
      - rewrite substring_prefix_length. lia. }
    assert (Hne : String.eqb (cut max_length c ++ "...") EmptyString = false).
    { destruct (cut max_length c); reflexivity. }
    rewrite Hne. eexists. split; [reflexivity|]. split.
    + intros H. rewrite H in Hne. rewrite String.eqb_refl in Hne. discriminate.
    + split; [intros H; rewrite H in E; simpl in E; lia|]. split.
      * intros H3. left. rewrite Hl. apply Nat.leb_le in H3. rewrite H3. lia.
      * intros H3 _. rewrite Hl. destruct (Nat.leb 3 max_length) eqn:F;
          [apply Nat.leb_le in F; lia|lia].
  - apply Nat.ltb_ge in E.
    destruct (String.eqb c EmptyString) eqn:Ec.
    + apply String.eqb_eq in Ec. eexists. split; [reflexivity|]. split; [discriminate|].
      split; [reflexivity|]. split; [right; exact Ec|]. intros _ H. lia.
    + eexists. split; [reflexivity|]. split.
      * intros H. rewrite H in Ec. discriminate.
      * split; [intros H; rewrite H in Ec; discriminate|]. split; [left; exact E|].
        intros _ H. lia.
Qed.

Lemma generate_session_title_length_witness :
  generate_session_title None 2 = None
  /\ exists title, generate_session_title (Some [TextBlock "Hello world"]) 2 = Some title
     /\ title <> EmptyString
     /\ (clean_title [TextBlock "Hello world"] = EmptyString -> title = "New Conversation")
     /\ (3 <= 2 -> String.length title <= 2
                   \/ clean_title [TextBlock "Hello world"] = EmptyString)
     /\ (2 < 3 -> 2 < String.length (clean_title [TextBlock "Hello world"]) ->
           2 < String.length title).
Proof. apply generate_session_title_length. Defined.

(** [create_fallback_title] returns the whitespace-normalised message when
    it fits, and otherwise a title of at most [max_length] characters for
    any [max_length >= 3], ending in [...]. *)
Theorem create_fallback_title_length (msg : string) (max_length : nat) :
  let clean := Py.join " " (split_ws msg) in
  (String.length clean <= max_length -> create_fallback_title msg max_length = clean)
  /\ (3 <= max_length -> String.length (create_fallback_title msg max_length) <= max_length).
Proof.
  cbv zeta. unfold create_fallback_title. cbv zeta.
  set (c := Py.join " " (split_ws msg)).
  split.
  - intros H. apply Nat.leb_le in H. rewrite H. reflexivity.
  - intros H3. destruct (Nat.leb (String.length c) max_length) eqn:E; [apply Nat.leb_le; exact E|].
    assert (Hc : String.length (cut max_length c) <= max_length - 3).
    { unfold cut. apply Nat.leb_le in H3. rewrite H3, substring_prefix_length. lia. }
    rewrite length_append. simpl (String.length "...").
    destruct (rfind (ascii_of_nat 32) (cut max_length c)) as [i|];
      [destruct (Nat.ltb (max_length / 2) i)|]; [|lia|lia].
    rewrite substring_prefix_length. lia.
Qed.

Lemma create_fallback_title_length_witness :
  let clean := Py.join " " (split_ws "  hello   there  my good    friend how are you doing today ") in
  (String.length clean <= 20 ->
     create_fallback_title "  hello   there  my good    friend how are you doing today " 20 = clean)
  /\ (3 <= 20 -> String.length (create_fallback_title
                   "  hello   there  my good    friend how are you doing today " 20) <= 20).
Proof. apply create_fallback_title_length. Defined.

End TitleFacts.

Module HandlerFacts.
Import Certify RequestAudit Fixtures.

(** Inversion of a successful [certify_application]. *)
Lemma certify_success_inv (conf : bool) (arg : option string) (c : option ctx) (now : Z)
    (s s' : store) (r : Certify.result) :
  certify_application conf arg c now s = (r, s') -> is_certified r = true ->
  exists id a, target_app arg c = Some id /\ Py.truthy (Some id) = true
    /\ find_app s id = Some a /\ unauthorized (ctx_user_id c) a = false
    /\ is_terminal (app_status a) = false /\ validation_failures s id = []
    /\ find_app s' id = Some (approved_row a now).
Proof.
  unfold certify_application. cbv zeta. intros H Hc.
  destruct conf; [|injection H as <- _; discriminate]. simpl negb in H. cbv iota in H.
  destruct (target_app arg c) as [id|] eqn:Ht; [|injection H as <- _; discriminate].
  destruct (Py.truthy (Some id)) eqn:Htr; [|injection H as <- _; discriminate].
  simpl negb in H. cbv iota in H.
  destruct (find_app s id) as [a|] eqn:Ef; [|injection H as <- _; discriminate].
  destruct (unauthorized (ctx_user_id c) a) eqn:Eu; [injection H as <- _; discriminate|].
  destruct (is_terminal (app_status a)) eqn:Et; [injection H as <- _; discriminate|].
  destruct (validation_failures s id) eqn:Ev; [|injection H as <- _; discriminate].
  injection H as _ Hs. exists id, a.
  do 6 (split; [first [assumption|reflexivity]|]).
  pose proof (CertifyFacts.find_approve id now s) as Hap. rewrite Ef in Hap.
  rewrite <- Hs.
  destruct (Py.truthy (ctx_user_id c)); [destruct (ctx_user_id c)|];
    rewrite ?CertifyFacts.find_add_audit; exact Hap.
Qed.

(** A certified application is final: for the same caller, certifying it
    again returns [already_certified] and [update_module] on any of its
    modules returns [application_locked], both leaving the store as it
    is. *)
Theorem certified_is_final (conf : bool) (arg : option string) (c : option ctx) (now : Z)
    (s s' : store) (r : Certify.result) :
  certify_application conf arg c now s = (r, s') -> is_certified r = true ->
  exists id, target_app arg c = Some id
  /\ (forall arg' c' now', target_app arg' c' = Some id -> ctx_user_id c' = ctx_user_id c ->
        certify_application true arg' c' now' s' = (Certify.Err "already_certified" EmptyString, s'))
  /\ (forall m mn f v arg' c' now', UpdateModule.MODULE_NAMES m = Some mn ->
        target_app arg' c' = Some id -> ctx_user_id c' = ctx_user_id c ->
        UpdateModule.update_module m f v arg' c' now' s' = (UpdateModule.Err "application_locked", s')).
Proof.
  intros H Hc.
  destruct (certify_success_inv _ _ _ _ _ _ _ H Hc)
    as (id & a & Ht & Htr & _ & Hu & _ & _ & Hf').
  assert (Hu' : forall c', ctx_user_id c' = ctx_user_id c ->
                  unauthorized (ctx_user_id c') (approved_row a now) = false).
  { intros c' Hc'. rewrite Hc'. exact Hu. }
  exists id. split; [exact Ht|]. split.
  - intros arg' c' now' Ht' Hc'. unfold certify_application. simpl negb. cbv zeta.
    rewrite Ht', Htr. simpl negb. cbv iota. rewrite Hf', (Hu' c' Hc'). reflexivity.
  - intros m mn f v arg' c' now' Hm Ht' Hc'.
    apply (LockFacts.update_module_locked m f v arg' c' now' s' id (approved_row a now) mn);
      try assumption.
    + apply Hu'. exact Hc'.
    + reflexivity.
Qed.

Lemma certified_is_final_witness :
  let out := certify_application true (Some "a2") (Some (mkCtx (Some "u2") None)) 9 complete in
  exists id, target_app (Some "a2") (Some (mkCtx (Some "u2") None)) = Some id
  /\ (forall arg' c' now', target_app arg' c' = Some id ->
        ctx_user_id c' = ctx_user_id (Some (mkCtx (Some "u2") None)) ->
        certify_application true arg' c' now' (snd out)
          = (Certify.Err "already_certified" EmptyString, snd out))
  /\ (forall m mn f v arg' c' now', UpdateModule.MODULE_NAMES m = Some mn ->
        target_app arg' c' = Some id ->
        ctx_user_id c' = ctx_user_id (Some (mkCtx (Some "u2") None)) ->
        UpdateModule.update_module m f v arg' c' now' (snd out)
          = (UpdateModule.Err "application_locked", snd out)).
Proof.
  intros out.
  apply (certified_is_final true (Some "a2") (Some (mkCtx (Some "u2") None)) 9 complete
           (snd out) (fst out)).
  - reflexivity.
  - vm_compute. reflexivity.
Defined.

(** The columns of an [applications] row other than [updated_at]. *)
Definition app_key (a : app_row) : string * string * string * string * option string :=
  (app_id a, app_user a, app_status a, app_cert_type a, app_notes a).

Lemma touch_keys (id : string) (now : Z) (s : store) :
  map app_key (apps (touch_app id now s)) = map app_key (apps s).
Proof.
  unfold touch_app, map_app. simpl. rewrite map_map.
  apply map_ext. intros a. destruct (String.eqb (app_id a) id); reflexivity.
Qed.

(** [update_module] never touches [documents] or [audit_trail], and of
    [applications] it changes only [updated_at]: no status, owner, type
    or notes change, whatever the outcome. *)
Theorem update_module_frame (m : Z) (f v : string) (arg : option string)
    (c : option ctx) (now : Z) (s : store) :
  let s' := snd (UpdateModule.update_module m f v arg c now s) in
  map app_key (apps s') = map app_key (apps s) /\ docs s' = docs s /\ audit s' = audit s.
Proof.
  cbv zeta. unfold UpdateModule.update_module.
  destruct (UpdateModule.MODULE_NAMES m) as [mn|]; [|auto].
  destruct (target_app arg c) as [id|]; [|auto]. cbv zeta.
  destruct (negb (Py.truthy (Some id))); [auto|].
  destruct (find_app s id) as [a|]; [|auto].
  destruct (unauthorized (ctx_user_id c) a); [auto|].
  destruct (is_terminal (app_status a)); [auto|].
  destruct (UpdateModule.find_field s id m f) as [row|]; simpl snd;
    rewrite touch_keys; auto.
Qed.

(** The field loop either raises, at a listed id that has a row, or runs
    through ids none of which has a row, leaving count, details and store
    as they were. *)
Lemma flag_fields_some (ids : list string) (reason : string) (now : Z) (id : string)
    (count : nat) (details : list string) (s : store) (n : nat) (d : list string)
    (s1 : store) :
  flag_fields ids reason now id count details s = Some (n, d, s1) ->
  n = count /\ d = details /\ s1 = s /\ (forall f, In f ids -> find_by_field s id f = None).
Proof.
  induction ids as [|g rest IH]; simpl.
  - intros H. injection H as <- <- <-. repeat split. intros f [].
  - destruct (find_by_field s id g) eqn:E; [discriminate|].
    intros H. destruct (IH H) as (-> & -> & -> & Hall).
    repeat split. intros f [<-|Hf]; [exact E|apply Hall; exact Hf].
Qed.

(** Inversion of a successful [request_audit]: the document step was
    skipped, the field list was non-empty and none of its ids has a row;
    nothing is flagged, and the store is the input with at most one
    audit row added and the application touched. *)
Lemma request_audit_flagged_inv (reason : string) (arg doc : option string)
    (ids : option (list string)) (c : option ctx) (now : Z) (s s' : store)
    (n : nat) (b : bool) (r : string) (d : list string) :
  request_audit reason arg doc ids c now s = (Flagged n b r d, s') ->
  exists id a l s2,
    target_app arg c = Some id /\ find_app s id = Some a /\ Py.truthy doc = false
    /\ ids = Some l /\ l <> [] /\ (forall f, In f l -> find_by_field s id f = None)
    /\ n = 0 /\ d = [] /\ b = false /\ r = reason
    /\ s' = touch_app id now s2
    /\ fields s2 = fields s /\ apps s2 = apps s /\ docs s2 = docs s
    /\ (audit s2 = audit s \/ exists e, audit s2 = audit s ++ [e]).
Proof.
  unfold request_audit. cbv zeta.
  destruct (target_app arg c) as [id|] eqn:Ht; [|discriminate].
  destruct (negb (Py.truthy (Some id))); [discriminate|].
  destruct (negb (Py.truthy doc) && negb (ids_truthy ids)) eqn:Enone; [discriminate|].
  destruct (find_app s id) as [a|] eqn:Ef; [|discriminate].
  destruct (unauthorized (ctx_user_id c) a); [discriminate|].
  destruct (Py.truthy doc) eqn:Edt.
  { destruct doc as [dd|]; [|discriminate].
    destruct (find_doc s dd id); discriminate. }
  assert (Hdoc : match doc with
                 | Some dd => if false then
                                match find_doc s dd id with
                                | None => Some (Err "document_not_found")
                                | Some _ => Some (Err "database_error") end
                              else None
                 | None => None end = None) by (destruct doc; reflexivity).
  rewrite Hdoc. clear Hdoc.
  destruct (ids_truthy ids) eqn:Ei; [|discriminate].
  destruct ids as [[|g l]|]; try discriminate.
  destruct (flag_fields (g :: l) reason now id 0 [] s) as [[[n0 d0] s1]|] eqn:Hff;
    [|discriminate].
  destruct (flag_fields_some _ _ _ _ _ _ _ _ _ _ Hff) as (-> & -> & -> & Hall).
  intros H. injection H as <- <- <- <- <-.
  refine (ex_intro _ id (ex_intro _ a (ex_intro _ (g :: l) (ex_intro _ _ _)))).
  do 3 (split; [first [assumption|reflexivity]|]).
  split; [reflexivity|]. split; [discriminate|]. split; [exact Hall|].
  do 5 (split; [reflexivity|]).
  destruct (ctx_user_id c) as [u|]; [destruct (Py.truthy (Some u))|]; simpl;
    (split; [reflexivity|split; [reflexivity|split; [reflexivity|]]]);
    [right; eexists; reflexivity|left; reflexivity|left; reflexivity].
Qed.

(** What [request_audit] writes, whatever the outcome: nothing, or the
    application's [updated_at] and at most one audit row. *)
Lemma request_audit_writes (reason : string) (arg doc : option string)
    (ids : option (list string)) (c : option ctx) (now : Z) (s : store) :
  let s' := snd (request_audit reason arg doc ids c now s) in
  s' = s \/ exists id s2, s' = touch_app id now s2
    /\ fields s2 = fields s /\ apps s2 = apps s /\ docs s2 = docs s
    /\ (audit s2 = audit s \/ exists e, audit s2 = audit s ++ [e]).
Proof.
  cbv zeta. destruct (request_audit reason arg doc ids c now s) as [res s'] eqn:H.
  simpl snd. destruct res as [e|n b r d].
  - left. revert H. unfold request_audit. cbv zeta.
    destruct (target_app arg c) as [id|]; [|congruence].
    destruct (negb (Py.truthy (Some id))); [congruence|].
    destruct (negb (Py.truthy doc) && negb (ids_truthy ids)); [congruence|].
    destruct (find_app s id) as [a|]; [|congruence].
    destruct (unauthorized (ctx_user_id c) a); [congruence|].
    destruct (match doc with Some dd => _ | None => None end) as [e'|]; [congruence|].
    destruct (if ids_truthy ids then _ else _) as [[[n0 d0] s1]|]; [|congruence].
    destruct (ctx_user_id c) as [u|]; [destruct (Py.truthy (Some u))|]; discriminate.
  - right. destruct (request_audit_flagged_inv _ _ _ _ _ _ _ _ _ _ _ _ H)
      as (id & a & l & s2 & _ & _ & _ & _ & _ & _ & _ & _ & _ & _ & Hs' & Hf & Ha & Hd & Hau).
    exists id, s2. auto.
Qed.

(** [request_audit] never flags a field: on success every listed id has
    no [module_data] row (ids without a row are skipped without an error),
    [flagged_fields_count] is [0], the details are empty and
    [flagged_document] is false; and a success always had a non-empty
    [field_ids] and no document id. *)
Theorem request_audit_flagged_count (reason : string) (arg doc : option string)
    (ids : option (list string)) (c : option ctx) (now : Z) (s s' : store)
    (id : string) (n : nat) (b : bool) (r : string) (d : list string) :
  target_app arg c = Some id ->
  request_audit reason arg doc ids c now s = (Flagged n b r d, s') ->
  n = 0 /\ d = [] /\ b = false /\ r = reason /\ Py.truthy doc = false
  /\ exists l, ids = Some l /\ l <> [] /\ (forall f, In f l -> find_by_field s id f = None).
Proof.
  intros Ht H.
  destruct (request_audit_flagged_inv _ _ _ _ _ _ _ _ _ _ _ _ H)
    as (id' & a & l & s2 & Ht' & _ & Hd & Hl & Hne & Hall & Hn & Hdd & Hb & Hr & _).
  rewrite Ht in Ht'. injection Ht' as <-.
  repeat split; try assumption. exists l. auto.
Qed.

Lemma request_audit_flagged_count_witness :
  0 = 0 /\ ([] : list string) = [] /\ false = false /\ "r" = "r" /\ Py.truthy None = false
  /\ exists l, Some ["nope"; "farm_size_hectares"] = Some l /\ l <> []
       /\ (forall f, In f l -> find_by_field open_app "a5" f = None).
Proof.
  apply (request_audit_flagged_count "r" (Some "a5") None (Some ["nope"; "farm_size_hectares"])
           (Some (mkCtx (Some "u5") None)) 7 open_app
           (snd (request_audit "r" (Some "a5") None (Some ["nope"; "farm_size_hectares"])
                   (Some (mkCtx (Some "u5") None)) 7 open_app))
           "a5" 0 false "r" []).
  - reflexivity.
  - vm_compute. reflexivity.
Defined.

(** [request_audit] with a document id never succeeds: the document is
    either not found in the application or its [UPDATE] fails, and
    nothing is written. *)
Theorem request_audit_document_fails (reason : string) (arg : option string) (doc : string)
    (ids : option (list string)) (c : option ctx) (now : Z) (s : store) :
  doc <> EmptyString ->
  exists e, request_audit reason arg (Some doc) ids c now s = (Err e, s).
Proof.
  intros Hd. unfold request_audit. cbv zeta.
  assert (Ht : Py.truthy (Some doc) = true).
  { unfold Py.truthy. destruct doc; [contradiction|reflexivity]. }
  destruct (target_app arg c) as [id|]; [|eexists; reflexivity].
  destruct (negb (Py.truthy (Some id))); [eexists; reflexivity|].
  rewrite Ht. simpl negb. cbv iota.
  destruct (find_app s id) as [a|]; [|eexists; reflexivity].
  destruct (unauthorized (ctx_user_id c) a); [eexists; reflexivity|].
  destruct (find_doc s doc id); eexists; reflexivity.
Qed.

Lemma request_audit_document_fails_witness :
  exists e, request_audit "r" (Some "a2") (Some "d2") None (Some (mkCtx (Some "u2") None))
              7 complete = (Err e, complete).
Proof. apply request_audit_document_fails. discriminate. Defined.

(** [request_audit] never reports [application_locked]: it has no status
    check, whatever the application's status. *)
Theorem request_audit_never_locked (reason : string) (arg doc : option string)
    (ids : option (list string)) (c : option ctx) (now : Z) (s : store) :
  fst (request_audit reason arg doc ids c now s) <> Err "application_locked".
Proof.
  unfold request_audit. cbv zeta.
  destruct (target_app arg c) as [id|]; [|discriminate].
  destruct (negb (Py.truthy (Some id))); [discriminate|].
  destruct (negb (Py.truthy doc) && negb (ids_truthy ids)); [discriminate|].
  destruct (find_app s id) as [a|]; [|discriminate].
  destruct (unauthorized (ctx_user_id c) a); [discriminate|].
  destruct doc as [dd|];
    [destruct (Py.truthy (Some dd)); [destruct (find_doc s dd id); discriminate|]|];
    (destruct (if ids_truthy ids then _ else _) as [[[n0 d0] s1]|]; [|discriminate]);
    destruct (ctx_user_id c) as [u|]; try destruct (Py.truthy (Some u)); discriminate.
Qed.

(** [request_audit] never changes what [certify_application] validates:
    documents and module data are untouched, so every application's
    validation failures are the same before and after the call. *)
Theorem request_audit_never_blocks_certify (reason : string) (arg doc : option string)
    (ids : option (list string)) (c : option ctx) (now : Z) (s : store) (id : string) :
  validation_failures (snd (request_audit reason arg doc ids c now s)) id
  = validation_failures s id.
Proof.
  destruct (request_audit_writes reason arg doc ids c now s)
    as [->|(id' & s2 & -> & Hf & _ & Hd & _)]; [reflexivity|].
  unfold validation_failures, checks, c_pending, c_processing, c_error, c_modules,
    c_flagged, c_no_docs, status_count, total_docs, docs_of, missing_modules,
    module_numbers, flagged_count.
  simpl docs. simpl fields. rewrite Hf, Hd. reflexivity.
Qed.

(** [request_audit] never changes [module_data] or [documents], changes
    of [applications] only [updated_at], and adds at most one
    [audit_trail] row. *)
Theorem request_audit_frame (reason : string) (arg doc : option string)
    (ids : option (list string)) (c : option ctx) (now : Z) (s : store) :
  let s' := snd (request_audit reason arg doc ids c now s) in
  map app_key (apps s') = map app_key (apps s) /\ docs s' = docs s
  /\ fields s' = fields s
  /\ (audit s' = audit s \/ exists e, audit s' = audit s ++ [e]).
Proof.
  cbv zeta.
  destruct (request_audit_writes reason arg doc ids c now s)
    as [->|(id & s2 & -> & Hf & Ha & Hd & Hau)]; [auto|].
  rewrite touch_keys. simpl docs. simpl fields. simpl audit.
  rewrite Ha, Hd, Hf. auto.
Qed.

End HandlerFacts.
